(** * pdfCropMargins: the crop-box computation core

    A shallow embedding of [src/pdfCropMargins/crop_utils.py] and of
    [PageConfiguration.validate_settings] from
    [src/pdfCropMargins/page_configuration.py], together with the
    properties of the specification that concern them.

    Conventions of the embedding:
    - Python numbers (page coordinates, resolutions, counts) are integers
      of [Z]; the comparisons and the sorting the code performs only use
      their order. [float(n)] is the double nearest to the int [n], itself
      an integer wherever it differs from [n], or [OverflowError].
    - A Python exception is a value [Raise e] of the type [result];
      statements are sequenced with the bind of that type.
    - Indexing follows Python: a negative index counts from the end and an
      index outside [-len, len) raises [IndexError].
    - The [print] calls guarded by [args.verbose] only write to standard
      output and are left out. *)

From Stdlib Require Import ZArith Lia Ascii.
From stdpp Require Import base list gmap sorting strings pretty.

Open Scope Z_scope.

(** ** Exceptions and the result of a computation *)

Inductive exn : Type :=
| IndexError
| TypeError
| OverflowError.

Inductive result (A : Type) : Type :=
| Ok (a : A)
| Raise (e : exn).
Arguments Ok {A} a.
Arguments Raise {A} e.

(** Sequencing: an exception raised by the first statement is the outcome
    of the whole block. stdpp's notation [x ← m; k] is used for it. *)
#[global] Instance result_ret : MRet result := @Ok.
#[global] Instance result_bind : MBind result := λ A B k m,
  match m with
  | Ok a => k a
  | Raise e => Raise e
  end.

(** [for x in xs: ys.append(f x)], stopping at the first exception. *)
Fixpoint result_map {A B : Type} (f : A → result B) (xs : list A) : result (list B) :=
  match xs with
  | [] => Ok []
  | x :: xs' =>
      y ← f x;
      ys ← result_map f xs';
      Ok (y :: ys)
  end.

(** Code that also reads and writes the attributes of an object ([args],
    [self]) threads that object as a state; an exception leaves the
    writes made before it in place. *)
Definition prog (S A : Type) : Type := S → S * result A.

#[global] Instance prog_ret {S : Type} : MRet (prog S) := λ A a s, (s, Ok a).
#[global] Instance prog_bind {S : Type} : MBind (prog S) := λ A B k m s,
  match m s with
  | (s', Ok a) => k a s'
  | (s', Raise e) => (s', Raise e)
  end.

(** Read an attribute, write the object, and run a computation that does
    not touch the object. *)
Definition attr {S A : Type} (field : S → A) : prog S A := λ s, (s, Ok (field s)).
Definition assign {S : Type} (update : S → S) : prog S () := λ s, (update s, Ok ()).
Definition pure_call {S A : Type} (r : result A) : prog S A := λ s, (s, r).

(** ** Python sequences *)

(** [l[i]] for a Python int [i]. *)
Definition py_index {A : Type} (l : list A) (i : Z) : result A :=
  let n := Z.of_nat (length l) in
  let j := if i <? 0 then n + i else i in
  if (0 <=? j) && (j <? n) then
    match l !! Z.to_nat j with
    | Some a => Ok a
    | None => Raise IndexError
    end
  else Raise IndexError.

(** [l[i] = v] on a Python list, for an index [i] produced by [enumerate]. *)
Definition py_setitem {A : Type} (l : list A) (i : nat) (v : A) : result (list A) :=
  if decide (i < length l)%nat then Ok (<[i:=v]> l) else Raise IndexError.

(** A box is a Python tuple or a Python list of numbers; [==] tells the two
    apart, indexing does not. *)
Inductive pyseq : Type :=
| PyTuple (xs : list Z)
| PyList (xs : list Z).

Definition items (s : pyseq) : list Z :=
  match s with
  | PyTuple xs => xs
  | PyList xs => xs
  end.

Definition py_getitem (s : pyseq) (i : Z) : result Z := py_index (items s) i.

(** [sorted(xs)] and [sorted(xs, reverse=True)] on numbers. *)
Definition sorted (xs : list Z) : list Z := merge_sort Z.le xs.
Definition sorted_reverse (xs : list Z) : list Z := merge_sort (flip Z.le) xs.

(** ** Conversion of an int to a float *)

(** The double nearest to a natural number [a]: [a] itself when it has at
    most 53 bits, otherwise its leading 53 bits rounded on the bits that
    are dropped, a tie going to the even neighbour. *)
Definition round_to_double (a : Z) : Z :=
  let bits := Z.log2 a + 1 in
  if bits <=? 53 then a
  else
    let shift := bits - 53 in
    let q := Z.shiftr a shift in
    let r := Z.land a (Z.ones shift) in
    let half := Z.shiftl 1 (shift - 1) in
    let q' := if (half <? r) || ((r =? half) && Z.odd q) then q + 1 else q in
    Z.shiftl q' shift.

(** [float(n)] for a Python int [n]: the rounding above, applied to the
    magnitude; a result of [2 ** 1024] or more is no double and the
    conversion raises [OverflowError]. *)
Definition py_float (n : Z) : result Z :=
  let m := round_to_double (Z.abs n) in
  if m <? 2 ^ 1024 then Ok (Z.sgn n * m) else Raise OverflowError.

(** ** crop_utils.py *)

(** The generator [full_page_box_list[pg][k] for pg in page_nums_to_crop]. *)
Definition edge_values (full_page_box_list : list pyseq) (page_nums_to_crop : gset Z)
    (k : Z) : result (list Z) :=
  result_map (fun pg => box ← py_index full_page_box_list pg; py_getitem box k)
             (elements page_nums_to_crop).

Definition calculate_same_size_bounding_box (full_page_box_list : list pyseq)
    (page_nums_to_crop : gset Z) (order_n : Z) : result pyseq :=
  lefts ← edge_values full_page_box_list page_nums_to_crop 0;
  bottoms ← edge_values full_page_box_list page_nums_to_crop 1;
  rights ← edge_values full_page_box_list page_nums_to_crop 2;
  tops ← edge_values full_page_box_list page_nums_to_crop 3;
  let same_size_bounding_box :=
    [sorted lefts; sorted bottoms; sorted_reverse rights; sorted_reverse tops] in
  box ← result_map (fun sortlist => py_index sortlist order_n) same_size_bounding_box;
  Ok (PyList box).

(** The inner loop [for index, char in enumerate(mask)], started at [index]. *)
Fixpoint mask_loop (index : nat) (mask : string) (new_default_tuple : list Z)
    (optional_tuple : pyseq) : result (list Z) :=
  match mask with
  | EmptyString => Ok new_default_tuple
  | String char mask' =>
      if Ascii.eqb char "t"%char then
        v ← py_getitem optional_tuple (Z.of_nat index);
        updated ← py_setitem new_default_tuple index v;
        mask_loop (S index) mask' updated optional_tuple
      else mask_loop (S index) mask' new_default_tuple optional_tuple
  end.

(** The outer loop over [zip(default_list, optional_list)], appending to
    [final_list]. *)
Fixpoint pair_loop (mask : string) (pairs : list (pyseq * pyseq))
    (final_list : list pyseq) : result (list pyseq) :=
  match pairs with
  | [] => Ok final_list
  | (default_tuple, optional_tuple) :: pairs' =>
      new_default_tuple ← mask_loop 0 mask (items default_tuple) optional_tuple;
      pair_loop mask pairs' (final_list ++ [PyTuple new_default_tuple])
  end.

Definition combine_tuple_lists_with_mask (mask : string)
    (default_list optional_list : list pyseq) : result (list pyseq) :=
  pair_loop mask (zip default_list optional_list) [].

(** The attributes of the parsed command line that [crop_utils] reads. An
    option that was not given is [None]. *)
Record Args : Type := mkArgs {
  verbose : bool;
  samePageSize : bool;
  samePageSizeOrderStat : option (list Z);
  setSamePageSize : option (list Z);
  samePageSize4 : option string;
  percentRetain : list Z;
  percentRetain4 : option (list Z);
  absoluteOffset : list Z;
  absoluteOffset4 : option (list Z);
  uniformOrderStat : option (list Z);
  uniformOrderStat4 : option (list Z)
}.

(** [args.samePageSize = v] *)
Definition set_samePageSize (v : bool) (args : Args) : Args :=
  mkArgs (verbose args) v (samePageSizeOrderStat args) (setSamePageSize args)
         (samePageSize4 args) (percentRetain args) (percentRetain4 args)
         (absoluteOffset args) (absoluteOffset4 args) (uniformOrderStat args)
         (uniformOrderStat4 args).

(** Truth value of an attribute that is [None] or a list, and of one that is
    [None] or a string. *)
Definition truthy_list {A : Type} (v : option (list A)) : bool :=
  match v with
  | Some (_ :: _) => true
  | _ => false
  end.

Definition truthy_str (v : option string) : bool :=
  match v with
  | Some (String _ _) => true
  | _ => false
  end.

(** The value of an attribute that is [None] or a list, used as a list. *)
Definition as_list {A : Type} (v : option (list A)) : result (list A) :=
  match v with
  | Some l => Ok l
  | None => Raise TypeError
  end.

Definition as_str (v : option string) : result string :=
  match v with
  | Some s => Ok s
  | None => Raise TypeError
  end.

(** The last loop of [handle_same_page_size_option], over
    [enumerate(full_page_box_list)] from [p_num] on. *)
Fixpoint select_loop (p_num : nat) (full_page_box_list : list pyseq)
    (page_nums_to_crop : gset Z) (same_size_bounding_box_list : list pyseq)
    (new_full_page_box_list : list pyseq) : result (list pyseq) :=
  match full_page_box_list with
  | [] => Ok new_full_page_box_list
  | f_box :: rest =>
      if bool_decide (Z.of_nat p_num ∉ page_nums_to_crop) then
        select_loop (S p_num) rest page_nums_to_crop same_size_bounding_box_list
                    (new_full_page_box_list ++ [f_box])
      else
        box ← py_index same_size_bounding_box_list (Z.of_nat p_num);
        select_loop (S p_num) rest page_nums_to_crop same_size_bounding_box_list
                    (new_full_page_box_list ++ [box])
  end.

Definition handle_same_page_size_option (full_page_box_list : list pyseq)
    (page_nums_to_crop : gset Z) (num_pages_to_crop : Z) : prog Args (list pyseq) :=
  stat ← attr samePageSizeOrderStat;
  order_n ←
    (if truthy_list stat then
       _ ← assign (set_samePageSize true);
       l ← pure_call (as_list stat);
       first ← pure_call (py_index l 0);
       let order_n := Z.min first (num_pages_to_crop - 1) in
       mret (Z.max order_n 0)
     else mret 0);
  same ← attr samePageSize;
  fixed ← attr setSamePageSize;
  if negb (same || truthy_list fixed) then mret full_page_box_list
  else
    same_size_bounding_box ←
      (if same then
         pure_call (calculate_same_size_bounding_box
                      full_page_box_list page_nums_to_crop order_n)
       else
         l ← pure_call (as_list fixed);
         floats ← pure_call (result_map py_float l);
         mret (PyList floats));
    let num_pages := length full_page_box_list in
    let same_size_bounding_box_list := replicate num_pages same_size_bounding_box in
    mask ← attr samePageSize4;
    same_size_bounding_box_list ←
      (if truthy_str mask then
         m ← pure_call (as_str mask);
         pure_call (combine_tuple_lists_with_mask
                      m full_page_box_list same_size_bounding_box_list)
       else mret same_size_bounding_box_list);
    pure_call (select_loop 0 full_page_box_list page_nums_to_crop
                           same_size_bounding_box_list []).

(** [args.x4.copy() if args.x4 else [args.x[0]] * 4] *)
Definition per_edge (x4 : option (list Z)) (x : list Z) : result (list Z) :=
  if negb (truthy_list x4) then
    first ← py_index x 0;
    Ok (replicate 4 first)
  else as_list x4.

Definition validate_crop_arguments : prog Args (gmap string (list Z)) :=
  pr4 ← attr percentRetain4;
  pr ← attr percentRetain;
  percent_retain_4 ← pure_call (per_edge pr4 pr);
  ao4 ← attr absoluteOffset4;
  ao ← attr absoluteOffset;
  absolute_offset_4 ← pure_call (per_edge ao4 ao);
  uo4 ← attr uniformOrderStat4;
  uo ← attr uniformOrderStat;
  uniform_order_stat_4 ←
    (if negb (truthy_list uo4) then
       if truthy_list uo then
         l ← pure_call (as_list uo);
         first ← pure_call (py_index l 0);
         mret (replicate 4 first)
       else mret (replicate 4 0)
     else pure_call (as_list uo4));
  mret (<["percent_retain_4" := percent_retain_4]>
        (<["absolute_offset_4" := absolute_offset_4]>
         (<["uniform_order_stat_4" := uniform_order_stat_4]> ∅))).

(** ** constants.py *)

Definition DEFAULT_DPI : Z := 72.
Definition DEFAULT_PERCENT_RETAIN : Z := 10.
Definition DEFAULT_PAGE_RATIO_WEIGHTS : list Z := [1; 1; 1; 1].

(** ** page_configuration.py *)

(** The attributes of a [PageConfiguration] are filled in from an arbitrary
    [args] object by [getattr], and [validate_settings] inspects their dynamic
    type, so they hold arbitrary Python values. *)
#[warnings="-register-all"]
Inductive pyval : Type :=
| PNone
| PBool (b : bool)
| PNum (n : Z)
| PStr (s : string)
| PList (vs : list pyval)
| PTuple (vs : list pyval).

Record PageConfiguration : Type := mkPageConfiguration {
  cfg_verbose : pyval;
  password : pyval;
  res_x : pyval;
  res_y : pyval;
  full_page_box : pyval;
  absolute_precrop_4 : pyval;
  percent_retain : pyval;
  percent_retain_4 : pyval;
  write_crop_data_to_file : pyval;
  boxes_to_set : pyval;
  page_ratio_weights : pyval
}.

Definition set_res_x (v : pyval) (self : PageConfiguration) : PageConfiguration :=
  mkPageConfiguration (cfg_verbose self) (password self) v (res_y self)
    (full_page_box self) (absolute_precrop_4 self) (percent_retain self)
    (percent_retain_4 self) (write_crop_data_to_file self) (boxes_to_set self)
    (page_ratio_weights self).

Definition set_res_y (v : pyval) (self : PageConfiguration) : PageConfiguration :=
  mkPageConfiguration (cfg_verbose self) (password self) (res_x self) v
    (full_page_box self) (absolute_precrop_4 self) (percent_retain self)
    (percent_retain_4 self) (write_crop_data_to_file self) (boxes_to_set self)
    (page_ratio_weights self).

Definition set_percent_retain_4 (v : pyval) (self : PageConfiguration) : PageConfiguration :=
  mkPageConfiguration (cfg_verbose self) (password self) (res_x self) (res_y self)
    (full_page_box self) (absolute_precrop_4 self) (percent_retain self)
    v (write_crop_data_to_file self) (boxes_to_set self)
    (page_ratio_weights self).

Definition set_absolute_precrop_4 (v : pyval) (self : PageConfiguration) : PageConfiguration :=
  mkPageConfiguration (cfg_verbose self) (password self) (res_x self) (res_y self)
    (full_page_box self) v (percent_retain self)
    (percent_retain_4 self) (write_crop_data_to_file self) (boxes_to_set self)
    (page_ratio_weights self).

(** [_set_default_values] *)
Definition default_values : PageConfiguration :=
  mkPageConfiguration (PBool false) PNone (PNum DEFAULT_DPI) (PNum DEFAULT_DPI)
    (PList [PStr "m"; PStr "c"]) (PList [PNum 0; PNum 0; PNum 0; PNum 0])
    (PNum DEFAULT_PERCENT_RETAIN) (PList (replicate 4 (PNum DEFAULT_PERCENT_RETAIN)))
    PNone (PList [PStr "m"]) (PList (PNum <$> DEFAULT_PAGE_RATIO_WEIGHTS)).

(** The number a value stands for in a comparison ([bool] is a subclass of
    [int]), if it is one. *)
Definition number_value (v : pyval) : option Z :=
  match v with
  | PNum n => Some n
  | PBool b => Some (if b then 1 else 0)
  | _ => None
  end.

(** [v <= 0]: a [TypeError] on a value that is not a number. *)
Definition py_le_zero (v : pyval) : result bool :=
  match number_value v with
  | Some n => Ok (n <=? 0)
  | None => Raise TypeError
  end.

(** [isinstance(v, list)] and [len(v)] *)
Definition isinstance_list (v : pyval) : bool :=
  match v with
  | PList _ => true
  | _ => false
  end.

Definition py_len (v : pyval) : result nat :=
  match v with
  | PList vs | PTuple vs => Ok (length vs)
  | PStr s => Ok (String.length s)
  | _ => Raise TypeError
  end.

(** [not isinstance(v, list) or len(v) != 4]; [or] evaluates [len] only on
    a list. *)
Definition not_four_element_list (v : pyval) : result bool :=
  if negb (isinstance_list v) then Ok true
  else n ← py_len v; Ok (negb (n =? 4)%nat).

Definition x_resolution_warning : string :=
  "Invalid X resolution, reset to " +:+ pretty DEFAULT_DPI.
Definition y_resolution_warning : string :=
  "Invalid Y resolution, reset to " +:+ pretty DEFAULT_DPI.
Definition percent_retain_4_warning : string := "Fixed percent_retain_4 to have 4 values".
Definition absolute_precrop_4_warning : string := "Fixed absolute_precrop_4 to have 4 values".

Definition validate_settings : prog PageConfiguration (list string) :=
  let warnings := [] in
  x ← attr res_x;
  bad_x ← pure_call (py_le_zero x);
  warnings ←
    (if bad_x : bool then
       _ ← assign (set_res_x (PNum DEFAULT_DPI));
       mret (warnings ++ [x_resolution_warning])
     else mret warnings);
  y ← attr res_y;
  bad_y ← pure_call (py_le_zero y);
  warnings ←
    (if bad_y : bool then
       _ ← assign (set_res_y (PNum DEFAULT_DPI));
       mret (warnings ++ [y_resolution_warning])
     else mret warnings);
  pr4 ← attr percent_retain_4;
  bad_pr4 ← pure_call (not_four_element_list pr4);
  warnings ←
    (if bad_pr4 : bool then
       pr ← attr percent_retain;
       _ ← assign (set_percent_retain_4 (PList (replicate 4 pr)));
       mret (warnings ++ [percent_retain_4_warning])
     else mret warnings);
  ap4 ← attr absolute_precrop_4;
  bad_ap4 ← pure_call (not_four_element_list ap4);
  warnings ←
    (if bad_ap4 : bool then
       _ ← assign (set_absolute_precrop_4 (PList [PNum 0; PNum 0; PNum 0; PNum 0]));
       mret (warnings ++ [absolute_precrop_4_warning])
     else mret warnings);
  mret warnings.

(** [needle in haystack] on strings. *)
Fixpoint str_contains (needle haystack : string) : bool :=
  String.prefix needle haystack ||
  match haystack with
  | EmptyString => false
  | String _ rest => str_contains needle rest
  end.

(** ** page_configuration.py: construction *)

(** The [args] object holds its attributes by name;
    [getattr(args, name, fallback)] is the attribute if [args] has it, and
    the fallback otherwise. An attribute that is set to [None] is there. *)
Definition getattr (args : gmap string pyval) (name : string) (fallback : pyval) : pyval :=
  default fallback (args !! name).

(** [v[0]]: the first entry of a list, a tuple or a string; [IndexError] on
    an empty one and [TypeError] on a value that has no entries. *)
Definition py_first (v : pyval) : result pyval :=
  match v with
  | PList vs | PTuple vs => py_index vs 0
  | PStr s =>
      match s with
      | String c _ => Ok (PStr (String c EmptyString))
      | EmptyString => Raise IndexError
      end
  | _ => Raise TypeError
  end.

Definition _set_values_from_args (args : gmap string pyval) : result PageConfiguration :=
  let verbose := getattr args "verbose" (PBool false) in
  let password := getattr args "password" PNone in
  let res_x := getattr args "resX" (PNum DEFAULT_DPI) in
  let res_y := getattr args "resY" (PNum DEFAULT_DPI) in
  let full_page_box := getattr args "fullPageBox" (PList [PStr "m"; PStr "c"]) in
  let absolute_precrop_4 :=
    getattr args "absolutePreCrop4" (PList [PNum 0; PNum 0; PNum 0; PNum 0]) in
  percent_retain ←
    py_first (getattr args "percentRetain" (PList [PNum DEFAULT_PERCENT_RETAIN]));
  let percent_retain_4 :=
    getattr args "percentRetain4" (PList (replicate 4 (PNum DEFAULT_PERCENT_RETAIN))) in
  let write_crop_data_to_file := getattr args "writeCropDataToFile" PNone in
  let boxes_to_set := getattr args "boxesToSet" (PList [PStr "m"]) in
  let page_ratio_weights :=
    getattr args "pageRatioWeights" (PList (PNum <$> DEFAULT_PAGE_RATIO_WEIGHTS)) in
  Ok (mkPageConfiguration verbose password res_x res_y full_page_box
        absolute_precrop_4 percent_retain percent_retain_4
        write_crop_data_to_file boxes_to_set page_ratio_weights).

(** [PageConfiguration(args)]; [args] is [None] or an object. *)
Definition __init__ (args : option (gmap string pyval)) : result PageConfiguration :=
  match args with
  | None => Ok default_values
  | Some args => _set_values_from_args args
  end.

(** * Vocabulary of the specification *)

(** ** Outcomes *)

(** The computation returns normally. *)
Definition returns {S A : Type} (outcome : S * result A) : Prop :=
  ∃ s a, outcome = (s, Ok a).

(** A computation that writes nothing to the object it runs on. *)
Definition preserves {S A : Type} (m : prog S A) : Prop := ∀ s, (m s).1 = s.

(** ** Boxes and masks *)

(** A [Box] is a quadruple [(left, bottom, right, top)]; an [EdgeMask] has
    four characters. *)
Definition Box (b : pyseq) : Prop := length (items b) = 4%nat.
Definition EdgeMask (mask : string) : Prop := String.length mask = 4%nat.

Definition is_tuple (b : pyseq) : Prop :=
  match b with
  | PyTuple _ => True
  | PyList _ => False
  end.

(** [tuple(b)] *)
Definition as_tuple (b : pyseq) : pyseq := PyTuple (items b).

(** The mask reaches no further than the box has entries. *)
Definition fits (mask : string) (b : pyseq) : Prop :=
  (String.length mask ≤ length (items b))%nat.

(** Following the specification of MaskedCombiner: edge [i] of the result
    is the override's when [mask[i] == 't'] and the default's otherwise. *)
Fixpoint masked_box (mask : string) (default override : list Z) : list Z :=
  match mask, default, override with
  | String char mask', d :: default', o :: override' =>
      (if Ascii.eqb char "t"%char then o else d) :: masked_box mask' default' override'
  | _, _, _ => default
  end.

Definition combine_with_mask (mask : string) (default_boxes override_boxes : list pyseq)
    : list pyseq :=
  zip_with (λ d o, PyTuple (masked_box mask (items d) (items o)))
           default_boxes override_boxes.

(** The claim that a length mismatch is reported as an error. *)
Definition fails_on_length_mismatch (mask : string) (default_list optional_list : list pyseq)
    : Prop :=
  length default_list ≠ length optional_list →
  ∃ e, combine_tuple_lists_with_mask mask default_list optional_list = Raise e.

(** ** Selections *)

(** The values of edge [k] over the selected pages, and their least and
    greatest element. *)
Definition selected_edge (boxes : list pyseq) (selection : gset Z) (k : Z) (v : Z) : Prop :=
  ∃ pg box, pg ∈ selection ∧ boxes !! Z.to_nat pg = Some box ∧
            items box !! Z.to_nat k = Some v.

Definition is_minimum (P : Z → Prop) (m : Z) : Prop := P m ∧ ∀ v, P v → m ≤ v.
Definition is_maximum (P : Z → Prop) (m : Z) : Prop := P m ∧ ∀ v, P v → v ≤ m.

(** The box list and the selection of the specification's scenario, and a
    selection that leaves page 1 out. *)
Definition scenario_boxes : list pyseq :=
  [PyList [0; 0; 100; 100]; PyList [10; 10; 110; 110]; PyList [5; 5; 105; 105]].
Definition scenario_selection : gset Z := {[0; 1; 2]}.
Definition partial_selection : gset Z := {[0; 2]}.

(** ** Calls of the same-page-size policy *)

(** The claim that a call leaves the [args] object as it was. *)
Definition leaves_args_unchanged (boxes : list pyseq) (selection : gset Z)
    (num_selected : Z) (args : Args) : Prop :=
  (handle_same_page_size_option boxes selection num_selected args).1 = args.

(** A call of [handle_same_page_size_option] within its contract: a list of
    boxes, a non-empty selection of valid page indices together with its
    size, a four-character mask if one is given, and four numbers if a
    fixed box is given. *)
Definition well_formed_call (boxes : list pyseq) (selection : gset Z)
    (num_selected : Z) (args : Args) : Prop :=
  Forall Box boxes ∧
  selection ≠ ∅ ∧
  (∀ pg, pg ∈ selection → 0 ≤ pg < Z.of_nat (length boxes)) ∧
  num_selected = Z.of_nat (size selection) ∧
  (∀ mask, samePageSize4 args = Some mask → EdgeMask mask) ∧
  (∀ box, setSamePageSize args = Some box → length box = 4%nat).

(** A command line with [--samePageSizeOrderStat 1] and nothing else, and
    one with [--samePageSize --samePageSize4 tfft]. *)
Definition order_stat_args : Args :=
  mkArgs false false (Some [1]) None None [10] None [0] None None None.
Definition same_size_args : Args :=
  mkArgs false true None None (Some "tfft"%string) [10] None [0] None None None.

(** ** Configurations *)

(** A resolution is a positive number; a per-edge setting is a list of
    four values. *)
Definition positive_number (v : pyval) : Prop :=
  ∃ n, number_value v = Some n ∧ 0 < n.

Definition four_element_list (v : pyval) : Prop :=
  ∃ vs, v = PList vs ∧ length vs = 4%nat.

(** A configuration in which all four checked attributes are invalid, and
    the default configuration with the X resolution of the scenario. *)
Definition broken_configuration : PageConfiguration :=
  mkPageConfiguration (PBool true) PNone (PNum (-5)) (PNum 0)
    (PList [PStr "m"; PStr "c"]) (PList [PNum 1]) (PNum 25) PNone
    PNone (PList [PStr "m"]) (PList (PNum <$> DEFAULT_PAGE_RATIO_WEIGHTS)).

Definition scenario_configuration : PageConfiguration :=
  set_res_x (PNum (-5)) default_values.

(** ** Further vocabulary *)

(** Every [t] of the mask stands at a position that both boxes have. *)
Definition t_positions_in_range (mask : string) (d o : pyseq) : Prop :=
  ∀ i, String.get i mask = Some "t"%char →
       (i < length (items d))%nat ∧ (i < length (items o))%nat.

(** The same as a test, for the positions from [index] on. *)
Fixpoint t_in_range (index : nat) (mask : string) (nd no : nat) : bool :=
  match mask with
  | EmptyString => true
  | String char mask' =>
      (if Ascii.eqb char "t"%char then (index <? nd)%nat && (index <? no)%nat else true)
      && t_in_range (S index) mask' nd no
  end.

Definition mask_in_range (mask : string) (p : pyseq * pyseq) : bool :=
  t_in_range 0 mask (length (items p.1)) (length (items p.2)).

(** [args.setSamePageSize = v] and [args.samePageSizeOrderStat = v], to
    compare calls on command lines that differ in one option. *)
Definition set_setSamePageSize (v : option (list Z)) (args : Args) : Args :=
  mkArgs (verbose args) (samePageSize args) (samePageSizeOrderStat args) v
         (samePageSize4 args) (percentRetain args) (percentRetain4 args)
         (absoluteOffset args) (absoluteOffset4 args) (uniformOrderStat args)
         (uniformOrderStat4 args).

Definition set_samePageSizeOrderStat (v : option (list Z)) (args : Args) : Args :=
  mkArgs (verbose args) (samePageSize args) v (setSamePageSize args)
         (samePageSize4 args) (percentRetain args) (percentRetain4 args)
         (absoluteOffset args) (absoluteOffset4 args) (uniformOrderStat args)
         (uniformOrderStat4 args).

(** The [args] object after the order statistic option has been handled,
    and the order statistic that is used. *)
Definition after_order_stat (args : Args) : Args :=
  if truthy_list (samePageSizeOrderStat args) then set_samePageSize true args else args.

Definition order_statistic (args : Args) (num_selected : Z) : Z :=
  match samePageSizeOrderStat args with
  | Some (first :: _) => Z.max (Z.min first (num_selected - 1)) 0
  | _ => 0
  end.

(** Whether a common size or a fixed size is requested. *)
Definition same_size_requested (args : Args) : bool :=
  samePageSize (after_order_stat args) || truthy_list (setSamePageSize args).

(** The one box that the selected pages are set to: the computed one if a
    common size is requested, and otherwise the box passed in, each entry
    converted by [float]. *)
Definition uniform_box (boxes : list pyseq) (selection : gset Z) (num_selected : Z)
    (args : Args) : result pyseq :=
  if samePageSize (after_order_stat args) then
    calculate_same_size_bounding_box boxes selection (order_statistic args num_selected)
  else
    l ← as_list (setSamePageSize args);
    floats ← result_map py_float l;
    Ok (PyList floats).

(** If the fixed size is the one that is used, [float] accepts each of its
    entries. *)
Definition fixed_size_converts (args : Args) : Prop :=
  samePageSize (after_order_stat args) = false →
  ∀ box, setSamePageSize args = Some box →
         ∃ floats, result_map py_float box = Ok floats.

(** An int that [float] represents exactly for being small enough. *)
Definition small_int (n : Z) : Prop := Z.abs n ≤ 2 ^ 53.

(** The list of boxes that the selected pages take their box from. *)
Definition same_size_list (boxes : list pyseq) (args : Args) (box : pyseq)
    : result (list pyseq) :=
  if truthy_str (samePageSize4 args) then
    m ← as_str (samePageSize4 args);
    combine_tuple_lists_with_mask m boxes (replicate (length boxes) box)
  else Ok (replicate (length boxes) box).

(** The box of a selected page: the uniform box, or with a mask the page's
    own box with the masked edges taken from the uniform box. *)
Definition page_box (mask : option string) (own uniform : pyseq) : pyseq :=
  match mask with
  | Some (String char mask') =>
      PyTuple (masked_box (String char mask') (items own) (items uniform))
  | _ => uniform
  end.

(** A per-edge option is given when it is a non-empty list; a scalar option
    is available when its list has a first entry. *)
Definition scalar_or_quadruple (x4 : option (list Z)) (x : list Z) : Prop :=
  truthy_list x4 = true ∨ x ≠ [].

(** The attribute names that [_set_values_from_args] looks up. *)
Definition attribute_names : list string :=
  ["verbose"; "password"; "resX"; "resY"; "fullPageBox"; "absolutePreCrop4";
   "percentRetain"; "percentRetain4"; "writeCropDataToFile"; "boxesToSet";
   "pageRatioWeights"].


(** What a per-edge value of the result is made from: the per-edge list if
    one is given, and four copies of the scalar otherwise. *)
Definition expanded (x4 : option (list Z)) (scalar : option Z) (l : list Z) : Prop :=
  match x4 with
  | Some (y :: t) => l = y :: t
  | _ => ∃ v, scalar = Some v ∧ l = [v; v; v; v]
  end.

(** * Properties *)

(** ** Sequencing and indexing *)

Lemma bind_Ok {A B : Type} (a : A) (k : A → result B) : (Ok a ≫= k) = k a.
Proof. reflexivity. Qed.

Lemma bind_Ok_inv {A B : Type} (m : result A) (k : A → result B) (b : B) :
  (m ≫= k) = Ok b → ∃ a, m = Ok a ∧ k a = Ok b.
Proof. destruct m as [a|e]; [eauto | discriminate]. Qed.

Lemma py_index_lookup {A : Type} (l : list A) (i : nat) (a : A) :
  l !! i = Some a → py_index l (Z.of_nat i) = Ok a.
Proof.
  intros Hi. pose proof (lookup_lt_Some _ _ _ Hi) as Hlt.
  unfold py_index.
  replace (Z.of_nat i <? 0) with false by (symmetry; apply Z.ltb_ge; lia).
  replace (0 <=? Z.of_nat i) with true by (symmetry; apply Z.leb_le; lia).
  replace (Z.of_nat i <? Z.of_nat (length l)) with true
    by (symmetry; apply Z.ltb_lt; lia).
  simpl. by rewrite Nat2Z.id, Hi.
Qed.

Lemma py_index_Ok {A : Type} (l : list A) (i : Z) (a : A) :
  py_index l i = Ok a → 0 ≤ i → l !! Z.to_nat i = Some a.
Proof.
  unfold py_index. intros H Hi.
  replace (i <? 0) with false in H by (symmetry; apply Z.ltb_ge; lia).
  destruct (_ && _); [|discriminate].
  destruct (l !! Z.to_nat i); congruence.
Qed.

Lemma py_index_Ok_iff {A : Type} (l : list A) (i : Z) (a : A) :
  0 ≤ i → py_index l i = Ok a ↔ l !! Z.to_nat i = Some a.
Proof.
  intros Hi. split; [intros H; by apply py_index_Ok|].
  intros H. rewrite <-(Z2Nat.id i) by done. by apply py_index_lookup.
Qed.

Lemma result_map_Ok_inv {A B : Type} (f : A → result B) (xs : list A) (ys : list B) :
  result_map f xs = Ok ys → Forall2 (λ x y, f x = Ok y) xs ys.
Proof.
  revert ys. induction xs as [|x xs IH]; intros ys H; simpl in H.
  - injection H as <-. constructor.
  - apply bind_Ok_inv in H as (y & Hy & H).
    apply bind_Ok_inv in H as (ys' & Hys & H). injection H as <-.
    constructor; [done|]. by apply IH.
Qed.

Lemma result_map_Ok {A B : Type} (f : A → result B) (xs : list A) :
  Forall (λ x, ∃ y, f x = Ok y) xs → ∃ ys, result_map f xs = Ok ys.
Proof.
  induction 1 as [|x xs [y Hy] _ [ys IH]]; simpl; [by eexists|].
  rewrite Hy, bind_Ok, IH, bind_Ok. by eexists.
Qed.

Lemma result_map_length {A B : Type} (f : A → result B) (xs : list A) (ys : list B) :
  result_map f xs = Ok ys → length ys = length xs.
Proof.
  intros H. apply result_map_Ok_inv in H. symmetry. by eapply Forall2_length.
Qed.

Lemma result_map_id {A : Type} (f : A → result A) (xs : list A) :
  Forall (λ x, f x = Ok x) xs → result_map f xs = Ok xs.
Proof.
  induction 1 as [|x xs Hx _ IH]; simpl; [done|].
  by rewrite Hx, bind_Ok, IH, bind_Ok.
Qed.

(** ** Conversion to float *)

Lemma round_to_double_small (a : Z) : 0 ≤ a < 2 ^ 53 → round_to_double a = a.
Proof.
  intros Ha. unfold round_to_double.
  assert (Z.log2 a + 1 ≤ 53) as Hbits.
  { destruct (decide (a = 0)) as [->|Hne]; [by vm_compute|].
    assert (Z.log2 a < 53); [|lia]. apply Z.log2_lt_pow2; lia. }
  apply Z.leb_le in Hbits. by rewrite Hbits.
Qed.

Lemma py_float_small_int (n : Z) : small_int n → py_float n = Ok n.
Proof.
  unfold small_int. intros Hn.
  destruct (decide (Z.abs n = 2 ^ 53)) as [Heq|Hne].
  - assert (n = 2 ^ 53 ∨ n = - 2 ^ 53) as [-> | ->] by lia; by vm_compute.
  - unfold py_float. rewrite round_to_double_small by lia.
    assert ((Z.abs n <? 2 ^ 1024) = true) as ->.
    { apply Z.ltb_lt. eapply Z.lt_le_trans with (2 ^ 53); [lia|by vm_compute]. }
    f_equal. destruct n; simpl; lia.
Qed.

(** Beyond [2 ** 53] the conversion rounds, a tie going to the even
    neighbour; the largest int that converts is just below
    [2 ** 1024 - 2 ** 970]. *)
Example py_float_rounds :
  py_float (2 ^ 53 + 1) = Ok (2 ^ 53) ∧ py_float (2 ^ 53 + 3) = Ok (2 ^ 53 + 4) ∧
  py_float (- (2 ^ 53 + 1)) = Ok (- 2 ^ 53).
Proof. by vm_compute. Qed.

Example py_float_largest :
  py_float (2 ^ 1024 - 2 ^ 970 - 1) = Ok (2 ^ 1024 - 2 ^ 971) ∧
  py_float (2 ^ 1024 - 2 ^ 970) = Raise OverflowError.
Proof. by vm_compute. Qed.

Lemma py_float_only_OverflowError (n : Z) (e : exn) :
  py_float n = Raise e → e = OverflowError.
Proof. unfold py_float. destruct (_ <? _); congruence. Qed.

Lemma float_list_only_OverflowError (l : list Z) (e : exn) :
  result_map py_float l = Raise e → e = OverflowError.
Proof.
  induction l as [|n l IH]; simpl; [done|].
  destruct (py_float n) as [m|e'] eqn:Hn; simpl.
  - destruct (result_map py_float l) as [ms|e'']; simpl; [done|].
    intros [= <-]. by apply IH.
  - intros [= <-]. by eapply py_float_only_OverflowError.
Qed.

(** ** Computations on a settings object *)

Lemma pure_call_bind_Ok {S A B : Type} (a : A) (k : A → prog S B) :
  (pure_call (Ok a) ≫= k) = k a.
Proof. reflexivity. Qed.

Lemma ret_bind {S A B : Type} (a : A) (k : A → prog S B) :
  (mret a ≫= k) = k a.
Proof. reflexivity. Qed.

Lemma returns_ret {S A : Type} (a : A) (s : S) : returns ((mret a : prog S A) s).
Proof. by exists s, a. Qed.

Lemma returns_pure_call {S A : Type} (r : result A) (s : S) :
  (∃ a, r = Ok a) → returns (pure_call r s).
Proof. intros [a ->]. by exists s, a. Qed.

Lemma preserves_ret {S A : Type} (a : A) : preserves (mret a : prog S A).
Proof. by intros s. Qed.

Lemma preserves_attr {S A : Type} (field : S → A) : preserves (attr field).
Proof. by intros s. Qed.

Lemma preserves_pure_call {S A : Type} (r : result A) : preserves (pure_call r : prog S A).
Proof. by intros s. Qed.

Lemma preserves_bind {S A B : Type} (m : prog S A) (k : A → prog S B) :
  preserves m → (∀ a, preserves (k a)) → preserves (m ≫= k).
Proof.
  intros Hm Hk s. specialize (Hm s). unfold mbind, prog_bind.
  destruct (m s) as [s' [a|e]]; simpl in *; subst; [apply Hk|done].
Qed.

Lemma bind_then_preserves {S A B : Type} (m : prog S A) (k : A → prog S B) (s : S) :
  (∀ a, preserves (k a)) → ((m ≫= k) s).1 = (m s).1.
Proof.
  intros Hk. unfold mbind, prog_bind.
  destruct (m s) as [s' [a|e]]; simpl; [apply Hk|done].
Qed.

Lemma attr_bind {S A B : Type} (field : S → A) (k : A → prog S B) (s : S) :
  (attr field ≫= k) s = k (field s) s.
Proof. reflexivity. Qed.

Lemma assign_bind {S B : Type} (update : S → S) (k : () → prog S B) (s : S) :
  (assign update ≫= k) s = k () (update s).
Proof. reflexivity. Qed.

Lemma prog_bind_Ok_inv {S A B : Type} (m : prog S A) (k : A → prog S B)
    (s s' : S) (b : B) :
  (m ≫= k) s = (s', Ok b) → ∃ s1 a, m s = (s1, Ok a) ∧ k a s1 = (s', Ok b).
Proof.
  unfold mbind, prog_bind. destruct (m s) as [s1 [a|e]]; [eauto|discriminate].
Qed.

Ltac solve_preserves :=
  repeat first
    [ apply preserves_ret | apply preserves_attr | apply preserves_pure_call
    | apply preserves_bind
    | match goal with
      | |- preserves (if ?b then _ else _) => destruct b
      | |- ∀ _, _ => intro
      end ].

(** ** MaskedCombiner *)

Lemma Box_fits (mask : string) (b : pyseq) : EdgeMask mask → Box b → fits mask b.
Proof. unfold EdgeMask, Box, fits. lia. Qed.

Lemma mask_loop_masked_box (mask : string) :
  ∀ (index : nat) (d : list Z) (o : pyseq),
    (index + String.length mask ≤ length d)%nat →
    (index + String.length mask ≤ length (items o))%nat →
    mask_loop index mask d o
    = Ok (take index d ++ masked_box mask (drop index d) (drop index (items o))).
Proof.
  induction mask as [|char mask IH]; intros index d o Hd Ho; simpl in *.
  - by rewrite take_drop.
  - destruct (lookup_lt_is_Some_2 d index) as [x Hx]; [lia|].
    destruct (lookup_lt_is_Some_2 (items o) index) as [y Hy]; [lia|].
    rewrite (drop_S _ _ _ Hx), (drop_S _ _ _ Hy).
    destruct (Ascii.eqb char "t") eqn:Hchar.
    + unfold py_getitem. rewrite (py_index_lookup _ _ _ Hy), bind_Ok.
      unfold py_setitem. destruct (decide (index < length d)%nat); [|lia].
      rewrite bind_Ok, IH by (rewrite ?length_insert; lia).
      f_equal. rewrite drop_insert_lt by lia.
      rewrite (take_S_r _ _ y) by (by apply list_lookup_insert_eq).
      rewrite take_insert_ge by lia. by rewrite <-app_assoc.
    + rewrite IH by lia. f_equal.
      rewrite (take_S_r _ _ _ Hx). by rewrite <-app_assoc.
Qed.

Lemma pair_loop_masked_box (mask : string) (pairs : list (pyseq * pyseq)) :
  ∀ final_list : list pyseq,
    Forall (λ p, fits mask p.1 ∧ fits mask p.2) pairs →
    pair_loop mask pairs final_list
    = Ok (final_list ++
          ((λ p, PyTuple (masked_box mask (items p.1) (items p.2))) <$> pairs)).
Proof.
  induction pairs as [|[d o] pairs IH]; intros final_list Hfits; simpl.
  - by rewrite app_nil_r.
  - apply Forall_cons in Hfits as [[Hd Ho] Hfits]. simpl in *.
    rewrite mask_loop_masked_box by (unfold fits in *; lia).
    rewrite bind_Ok, IH by done. simpl.
    by rewrite drop_0, <-app_assoc.
Qed.

(** On boxes that the mask fits, the code computes the combination the
    specification describes, over the pairs of [zip]. *)
Lemma combine_tuple_lists_with_mask_refines (mask : string) (dl ol : list pyseq) :
  Forall (fits mask) dl → Forall (fits mask) ol →
  combine_tuple_lists_with_mask mask dl ol = Ok (combine_with_mask mask dl ol).
Proof.
  intros Hd Ho. unfold combine_tuple_lists_with_mask, combine_with_mask.
  rewrite pair_loop_masked_box; simpl.
  - f_equal. revert ol Ho.
    induction Hd as [|d dl _ _ IH]; intros [|o ol] Ho; simpl; try done.
    apply Forall_cons in Ho as [_ Ho]. f_equal. by apply IH.
  - revert ol Ho.
    induction Hd as [|d dl Hd1 _ IH]; intros [|o ol] Ho; simpl; try done.
    apply Forall_cons in Ho as [Ho1 Ho]. constructor; [done|]. by apply IH.
Qed.

Lemma Box_inv (b : pyseq) :
  Box b → ∃ x0 x1 x2 x3, items b = [x0; x1; x2; x3].
Proof.
  unfold Box. destruct (items b) as [|x0 [|x1 [|x2 [|x3 [|x4 xs]]]]]; try discriminate.
  eauto.
Qed.

Lemma zip_take_min {A B : Type} (l : list A) (k : list B) :
  zip (take (length l `min` length k) l) (take (length l `min` length k) k) = zip l k.
Proof.
  revert k. induction l as [|x l IH]; intros [|y k]; simpl; try done.
  by rewrite IH.
Qed.

Lemma combine_with_mask_length (mask : string) (dl ol : list pyseq) :
  length (combine_with_mask mask dl ol) = (length dl `min` length ol)%nat.
Proof. unfold combine_with_mask. apply length_zip_with. Qed.

Lemma combine_with_mask_lookup (mask : string) (dl ol : list pyseq) (i : nat) (d o : pyseq) :
  dl !! i = Some d → ol !! i = Some o →
  combine_with_mask mask dl ol !! i = Some (PyTuple (masked_box mask (items d) (items o))).
Proof.
  intros Hd Ho. unfold combine_with_mask. rewrite lookup_zip_with, Hd. simpl. by rewrite Ho.
Qed.

(** C1, as amended: with mask "tfft", default [(1,2,3,4)] and override
    [(10,20,30,40)] the result is [(10,2,3,40)]: edges 0 and 3, where the
    mask has 't', come from the override tuple, and edges 1 and 2 from the
    default tuple. *)
Theorem combine_scenario_tfft :
  combine_tuple_lists_with_mask "tfft" [PyTuple [1; 2; 3; 4]] [PyTuple [10; 20; 30; 40]]
  = Ok [PyTuple [10; 2; 3; 40]].
Proof. reflexivity. Qed.

(** C1, as stated, fails: the result is not [(10,2,30,40)], since mask
    character 2 is 'f' and edge 2 stays 3. *)
Lemma combine_scenario_tfft_not_30 :
  combine_tuple_lists_with_mask "tfft" [PyTuple [1; 2; 3; 4]] [PyTuple [10; 20; 30; 40]]
  ≠ Ok [PyTuple [10; 2; 30; 40]].
Proof. vm_compute. intros [=]. Qed.

(** C4, as stated, fails: with two default boxes and one override box no
    error is raised; the second default box is dropped. *)
Lemma combine_length_mismatch_not_reported :
  ¬ fails_on_length_mismatch "tfft"
      [PyTuple [1; 2; 3; 4]; PyTuple [5; 6; 7; 8]] [PyTuple [10; 20; 30; 40]].
Proof.
  intros Hfails. destruct Hfails as [e He]; [simpl; lia|].
  vm_compute in He. discriminate.
Qed.

(** C4, as amended: lists of different lengths are not checked. The outcome
    is the outcome on both lists cut to the shorter length, and for a
    four-character mask and boxes of four entries it is a list of that
    length and not an error. *)
Theorem combine_length_mismatch_truncates (mask : string) (dl ol : list pyseq) :
  length dl ≠ length ol →
  let n := (length dl `min` length ol)%nat in
  combine_tuple_lists_with_mask mask dl ol
  = combine_tuple_lists_with_mask mask (take n dl) (take n ol) ∧
  (EdgeMask mask → Forall Box dl → Forall Box ol →
   ∃ r, combine_tuple_lists_with_mask mask dl ol = Ok r ∧ length r = n).
Proof.
  intros _ n. split.
  - unfold combine_tuple_lists_with_mask, n. by rewrite zip_take_min.
  - intros Hm Hd Ho. exists (combine_with_mask mask dl ol). split.
    + apply combine_tuple_lists_with_mask_refines;
        (eapply Forall_impl; [eassumption|]); intros b; by apply Box_fits.
    + apply combine_with_mask_length.
Qed.

Lemma combine_length_mismatch_truncates_witness :
  combine_tuple_lists_with_mask "tfft"
    [PyTuple [1; 2; 3; 4]; PyTuple [5; 6; 7; 8]] [PyTuple [10; 20; 30; 40]]
  = combine_tuple_lists_with_mask "tfft" [PyTuple [1; 2; 3; 4]] [PyTuple [10; 20; 30; 40]] ∧
  ∃ r, combine_tuple_lists_with_mask "tfft"
         [PyTuple [1; 2; 3; 4]; PyTuple [5; 6; 7; 8]] [PyTuple [10; 20; 30; 40]] = Ok r ∧
       length r = 1%nat.
Proof.
  destruct (combine_length_mismatch_truncates "tfft"
    [PyTuple [1; 2; 3; 4]; PyTuple [5; 6; 7; 8]] [PyTuple [10; 20; 30; 40]])
    as [Hcut Hret]; [simpl; lia|].
  split; [exact Hcut|]. apply Hret; [reflexivity| |]; repeat constructor.
Defined.

(** With all four flags [f] every result box is the default box as a
    tuple, with all four flags [t] it is the override box as a tuple,
    whether the input boxes are tuples or lists. *)
Lemma combine_with_mask_all_f_all_t (dl ol : list pyseq) :
  length dl = length ol → Forall Box dl → Forall Box ol →
  combine_with_mask "ffff" dl ol = as_tuple <$> dl ∧
  combine_with_mask "tttt" dl ol = as_tuple <$> ol.
Proof.
  intros Hlen Hd. unfold combine_with_mask, as_tuple. revert ol Hlen.
  induction Hd as [|d dl Hd1 _ IH]; intros [|o ol] Hlen Ho; try done.
  apply Forall_cons in Ho as [Ho1 Ho]. simpl in Hlen.
  destruct (IH ol) as [IHf IHt]; [lia|done|].
  destruct (Box_inv _ Hd1) as (d0 & d1 & d2 & d3 & Hdi).
  destruct (Box_inv _ Ho1) as (o0 & o1 & o2 & o3 & Hoi).
  cbn [zip_with]. by rewrite !fmap_cons, IHf, IHt, Hdi, Hoi.
Qed.

(** A list of boxes is equal to its boxes as tuples exactly when they are
    tuples. *)
Lemma tuples_as_tuples (l : list pyseq) :
  as_tuple <$> l = l ↔ Forall is_tuple l.
Proof.
  induction l as [|b l IH]; [done|]. rewrite fmap_cons, Forall_cons. split.
  - intros [= Hb Hl]. split; [|by apply IH]. destruct b; [done|discriminate Hb].
  - intros [Hb Hl]. f_equal; [by destruct b|by apply IH].
Qed.

(** C6, as stated, fails when the boxes are lists, as they are in the call
    from [handle_same_page_size_option]: the returned boxes are tuples, and
    a tuple is not equal to a list. *)
Lemma combine_all_f_list_boxes_not_default :
  combine_tuple_lists_with_mask "ffff"
    [PyList [1; 2; 3; 4]] [PyList [10; 20; 30; 40]]
  ≠ Ok [PyList [1; 2; 3; 4]].
Proof. vm_compute. intros Heq. discriminate Heq. Qed.

(** C6, as amended: for equal-length lists of boxes, mask "ffff" returns
    the default list and mask "tttt" returns the override list, each box
    as a tuple; that is a list equal to the default list, or to the
    override list, exactly when the boxes of that list are tuples. *)
Theorem combine_all_f_all_t (dl ol : list pyseq) :
  length dl = length ol → Forall Box dl → Forall Box ol →
  combine_tuple_lists_with_mask "ffff" dl ol = Ok (as_tuple <$> dl) ∧
  combine_tuple_lists_with_mask "tttt" dl ol = Ok (as_tuple <$> ol) ∧
  (as_tuple <$> dl = dl ↔ Forall is_tuple dl) ∧
  (as_tuple <$> ol = ol ↔ Forall is_tuple ol).
Proof.
  intros Hlen Hdb Hob.
  assert (∀ mask l, EdgeMask mask → Forall Box l → Forall (fits mask) l) as Hfit.
  { intros mask l Hm Hl. eapply Forall_impl; [exact Hl|].
    intros b Hb. by apply Box_fits. }
  rewrite !combine_tuple_lists_with_mask_refines by (by apply Hfit).
  destruct (combine_with_mask_all_f_all_t dl ol Hlen Hdb Hob) as [-> ->].
  repeat split; apply tuples_as_tuples.
Qed.

Lemma combine_all_f_all_t_witness :
  combine_tuple_lists_with_mask "ffff"
    [PyTuple [1; 2; 3; 4]; PyList [5; 6; 7; 8]]
    [PyList [10; 20; 30; 40]; PyTuple [50; 60; 70; 80]]
  = Ok [PyTuple [1; 2; 3; 4]; PyTuple [5; 6; 7; 8]] ∧
  combine_tuple_lists_with_mask "tttt"
    [PyTuple [1; 2; 3; 4]; PyList [5; 6; 7; 8]]
    [PyList [10; 20; 30; 40]; PyTuple [50; 60; 70; 80]]
  = Ok [PyTuple [10; 20; 30; 40]; PyTuple [50; 60; 70; 80]].
Proof.
  destruct (combine_all_f_all_t
              [PyTuple [1; 2; 3; 4]; PyList [5; 6; 7; 8]]
              [PyList [10; 20; 30; 40]; PyTuple [50; 60; 70; 80]])
    as (Hf & Ht & _); [reflexivity|repeat constructor..|].
  split; [exact Hf|exact Ht].
Defined.

(** C10: for a four-character mask and any two lists of boxes, of equal
    length or not, the call raises no error and returns a list as long as
    the shorter input; its entry [i] combines entry [i] of both inputs, so
    the extra entries of the longer list are dropped. *)
Theorem combine_length_is_min (mask : string) (dl ol : list pyseq) :
  EdgeMask mask → Forall Box dl → Forall Box ol →
  ∃ r, combine_tuple_lists_with_mask mask dl ol = Ok r ∧
       length r = (length dl `min` length ol)%nat ∧
       ∀ i d o, dl !! i = Some d → ol !! i = Some o →
                r !! i = Some (PyTuple (masked_box mask (items d) (items o))).
Proof.
  intros Hm Hd Ho. exists (combine_with_mask mask dl ol). split; [|split].
  - apply combine_tuple_lists_with_mask_refines;
      (eapply Forall_impl; [eassumption|]); intros b; by apply Box_fits.
  - apply combine_with_mask_length.
  - intros i d o. apply combine_with_mask_lookup.
Qed.

Lemma combine_length_is_min_witness :
  ∃ r, combine_tuple_lists_with_mask "tfft"
         [PyTuple [1; 2; 3; 4]; PyTuple [5; 6; 7; 8]; PyList [9; 9; 9; 9]]
         [PyList [10; 20; 30; 40]] = Ok r ∧
       length r = 1%nat ∧
       ∀ i d o, [PyTuple [1; 2; 3; 4]; PyTuple [5; 6; 7; 8]; PyList [9; 9; 9; 9]] !! i = Some d →
                [PyList [10; 20; 30; 40]] !! i = Some o →
                r !! i = Some (PyTuple (masked_box "tfft" (items d) (items o))).
Proof.
  apply (combine_length_is_min "tfft"
           [PyTuple [1; 2; 3; 4]; PyTuple [5; 6; 7; 8]; PyList [9; 9; 9; 9]]
           [PyList [10; 20; 30; 40]]);
    [reflexivity| |]; repeat constructor.
Defined.

(** ** BoundingBoxMath *)

Section edge_values.
Variable boxes : list pyseq.
Variable selection : gset Z.
Hypothesis boxes_are_boxes : Forall Box boxes.
Hypothesis selection_valid :
  ∀ pg, pg ∈ selection → 0 ≤ pg < Z.of_nat (length boxes).

Lemma selected_box_edge (pg k : Z) :
  pg ∈ selection → 0 ≤ k < 4 →
  ∃ box v, boxes !! Z.to_nat pg = Some box ∧ items box !! Z.to_nat k = Some v.
Proof.
  intros Hpg Hk. apply selection_valid in Hpg.
  destruct (lookup_lt_is_Some_2 boxes (Z.to_nat pg)) as [box Hbox]; [lia|].
  assert (Box box) as Hb by (eapply Forall_lookup_1; eauto).
  destruct (lookup_lt_is_Some_2 (items box) (Z.to_nat k)) as [v Hv];
    [unfold Box in Hb; lia|].
  eauto.
Qed.

Lemma edge_of_page (pg k v : Z) :
  pg ∈ selection → 0 ≤ k →
  (box ← py_index boxes pg; py_getitem box k) = Ok v ↔
  ∃ box, boxes !! Z.to_nat pg = Some box ∧ items box !! Z.to_nat k = Some v.
Proof.
  intros Hpg Hk. apply selection_valid in Hpg. split.
  - intros H. apply bind_Ok_inv in H as (box & Hbox & H).
    exists box. split; apply py_index_Ok; (done || lia).
  - intros (box & Hbox & Hv).
    apply (py_index_Ok_iff boxes pg) in Hbox; [|lia]. rewrite Hbox, bind_Ok.
    by apply py_index_Ok_iff.
Qed.

Lemma edge_values_Ok (k : Z) :
  0 ≤ k < 4 →
  ∃ vs, edge_values boxes selection k = Ok vs ∧
        length vs = size selection ∧
        ∀ v, v ∈ vs ↔ selected_edge boxes selection k v.
Proof.
  intros Hk. unfold edge_values.
  destruct (result_map_Ok
              (λ pg, box ← py_index boxes pg; py_getitem box k)
              (elements selection)) as [vs Hvs].
  { apply Forall_forall. intros pg Hpg. apply elem_of_elements in Hpg.
    destruct (selected_box_edge pg k) as (box & v & Hbox & Hv); [done..|].
    exists v. apply edge_of_page; [done|lia|eauto]. }
  exists vs. split; [done|].
  apply result_map_Ok_inv in Hvs. split.
  { symmetry. apply (Forall2_length _ _ _ Hvs). }
  intros v. split.
  - intros Hv. apply list_elem_of_lookup in Hv as [i Hi].
    destruct (Forall2_lookup_r _ _ _ _ _ Hvs Hi) as (pg & Hpg & Hf).
    apply list_elem_of_lookup_2, elem_of_elements in Hpg.
    apply edge_of_page in Hf as (box & Hbox & Hv); [|done|lia].
    by exists pg, box.
  - intros (pg & box & Hpg & Hbox & Hv).
    assert (pg ∈ elements selection) as Hin by (by apply elem_of_elements).
    apply list_elem_of_lookup in Hin as [i Hi].
    destruct (Forall2_lookup_l _ _ _ _ _ Hvs Hi) as (v' & Hv' & Hf).
    apply edge_of_page in Hf as (box' & Hbox' & Hv''); [|done|lia].
    assert (v' = v) as -> by congruence.
    by eapply list_elem_of_lookup_2.
Qed.
End edge_values.

Lemma StronglySorted_lookup {A : Type} (R : relation A) (l : list A) :
  StronglySorted R l →
  ∀ i j a b, l !! i = Some a → l !! j = Some b → (i < j)%nat → R a b.
Proof.
  induction 1 as [|x l _ IH Hx]; intros i j a b Ha Hb Hij; [done|].
  destruct j as [|j]; [lia|]. simpl in Hb. destruct i as [|i]; simpl in Ha.
  - injection Ha as <-. eapply Forall_lookup_1; eauto.
  - eapply IH; eauto. lia.
Qed.

#[local] Instance flip_le_total : Total (flip Z.le).
Proof. intros x y. unfold flip. lia. Qed.

#[local] Instance flip_le_trans : Transitive (flip Z.le).
Proof. intros x y z. unfold flip. lia. Qed.

Lemma sorted_ascending (xs : list Z) : StronglySorted Z.le (sorted xs).
Proof. apply StronglySorted_merge_sort; apply _. Qed.

Lemma sorted_Permutation (xs : list Z) : sorted xs ≡ₚ xs.
Proof. apply merge_sort_Permutation. Qed.

Lemma sorted_reverse_descending (xs : list Z) :
  StronglySorted (flip Z.le) (sorted_reverse xs).
Proof. apply StronglySorted_merge_sort; apply _. Qed.

Lemma sorted_reverse_Permutation (xs : list Z) : sorted_reverse xs ≡ₚ xs.
Proof. apply merge_sort_Permutation. Qed.

(** In a list sorted by [R], the entry at index 0 is related to every entry
    and adjacent entries are related. *)
Lemma sorted_by_first {A : Type} (R : relation A) `{!Reflexive R} (l xs : list A) (m : A) :
  StronglySorted R l → l ≡ₚ xs → l !! 0%nat = Some m →
  m ∈ xs ∧ ∀ v, v ∈ xs → R m v.
Proof.
  intros Hsorted Hperm Hm. split.
  - rewrite <-Hperm. by eapply list_elem_of_lookup_2.
  - intros v Hv. rewrite <-Hperm in Hv. apply list_elem_of_lookup in Hv as [j Hj].
    destruct j as [|j].
    + assert (v = m) as -> by congruence. reflexivity.
    + eapply (StronglySorted_lookup R l Hsorted 0 (S j)); eauto. lia.
Qed.

Lemma sorted_lookup_exists (l xs : list Z) (n : Z) :
  l ≡ₚ xs → 0 ≤ n < Z.of_nat (length xs) → ∃ m, l !! Z.to_nat n = Some m.
Proof.
  intros Hperm Hn. apply lookup_lt_is_Some_2.
  rewrite (Permutation_length Hperm). lia.
Qed.

Section same_size_bounding_box.
Variable boxes : list pyseq.
Variable selection : gset Z.
Hypothesis boxes_are_boxes : Forall Box boxes.
Hypothesis selection_valid :
  ∀ pg, pg ∈ selection → 0 ≤ pg < Z.of_nat (length boxes).

(** The four generators succeed and enumerate the selected edge values. *)
Lemma selected_edge_values :
  ∃ lefts bottoms rights tops,
    edge_values boxes selection 0 = Ok lefts ∧
    edge_values boxes selection 1 = Ok bottoms ∧
    edge_values boxes selection 2 = Ok rights ∧
    edge_values boxes selection 3 = Ok tops ∧
    (length lefts = size selection ∧ length bottoms = size selection ∧
     length rights = size selection ∧ length tops = size selection) ∧
    (∀ v, v ∈ lefts ↔ selected_edge boxes selection 0 v) ∧
    (∀ v, v ∈ bottoms ↔ selected_edge boxes selection 1 v) ∧
    (∀ v, v ∈ rights ↔ selected_edge boxes selection 2 v) ∧
    (∀ v, v ∈ tops ↔ selected_edge boxes selection 3 v).
Proof.
  destruct (edge_values_Ok boxes selection boxes_are_boxes selection_valid 0)
    as (lefts & ? & ? & ?); [lia|].
  destruct (edge_values_Ok boxes selection boxes_are_boxes selection_valid 1)
    as (bottoms & ? & ? & ?); [lia|].
  destruct (edge_values_Ok boxes selection boxes_are_boxes selection_valid 2)
    as (rights & ? & ? & ?); [lia|].
  destruct (edge_values_Ok boxes selection boxes_are_boxes selection_valid 3)
    as (tops & ? & ? & ?); [lia|].
  exists lefts, bottoms, rights, tops. repeat (split; [done|]). done.
Qed.

(** The result is made of the entries at index [order_n] of the four
    sorted lists. *)
Lemma calculate_from_sorted (order_n : Z) (lefts bottoms rights tops : list Z)
    (l b r t : Z) :
  edge_values boxes selection 0 = Ok lefts →
  edge_values boxes selection 1 = Ok bottoms →
  edge_values boxes selection 2 = Ok rights →
  edge_values boxes selection 3 = Ok tops →
  0 ≤ order_n →
  sorted lefts !! Z.to_nat order_n = Some l →
  sorted bottoms !! Z.to_nat order_n = Some b →
  sorted_reverse rights !! Z.to_nat order_n = Some r →
  sorted_reverse tops !! Z.to_nat order_n = Some t →
  calculate_same_size_bounding_box boxes selection order_n = Ok (PyList [l; b; r; t]).
Proof.
  intros Hlefts Hbottoms Hrights Htops Hn Hl Hb Hr Ht.
  unfold calculate_same_size_bounding_box.
  rewrite Hlefts, bind_Ok, Hbottoms, bind_Ok, Hrights, bind_Ok, Htops, bind_Ok.
  apply py_index_Ok_iff in Hl, Hb, Hr, Ht; try done.
  simpl. by rewrite Hl, bind_Ok, Hb, bind_Ok, Hr, bind_Ok, Ht.
Qed.
End same_size_bounding_box.

Lemma scenario_selection_valid (pg : Z) :
  pg ∈ scenario_selection → 0 ≤ pg < Z.of_nat (length scenario_boxes).
Proof.
  unfold scenario_selection. intros Hpg.
  apply elem_of_union in Hpg as [Hpg|Hpg];
    [apply elem_of_union in Hpg as [Hpg|Hpg]|];
    apply elem_of_singleton in Hpg; subst; simpl; lia.
Qed.

Lemma scenario_selection_not_empty : scenario_selection ≠ ∅.
Proof.
  intros Hempty. assert (0 ∈ scenario_selection) as Hin by (by vm_compute).
  rewrite Hempty in Hin. by apply not_elem_of_empty in Hin.
Qed.

Lemma scenario_boxes_are_boxes : Forall Box scenario_boxes.
Proof. repeat constructor. Qed.

(** C2: for a list of boxes and a non-empty selection of valid page
    indices, [order_n = 0] gives the box made of the least selected left,
    the least selected bottom, the greatest selected right and the greatest
    selected top; on the scenario's boxes it gives [0,0,110,110], and
    [5,5,105,105] for [order_n = 1]. *)
Theorem same_size_bounding_box_order_0 :
  (∀ (boxes : list pyseq) (selection : gset Z),
     Forall Box boxes → selection ≠ ∅ →
     (∀ pg, pg ∈ selection → 0 ≤ pg < Z.of_nat (length boxes)) →
     ∃ l b r t,
       calculate_same_size_bounding_box boxes selection 0 = Ok (PyList [l; b; r; t]) ∧
       is_minimum (selected_edge boxes selection 0) l ∧
       is_minimum (selected_edge boxes selection 1) b ∧
       is_maximum (selected_edge boxes selection 2) r ∧
       is_maximum (selected_edge boxes selection 3) t) ∧
  calculate_same_size_bounding_box scenario_boxes scenario_selection 0
  = Ok (PyList [0; 0; 110; 110]) ∧
  calculate_same_size_bounding_box scenario_boxes scenario_selection 1
  = Ok (PyList [5; 5; 105; 105]).
Proof.
  split; [|split; vm_compute; reflexivity].
  intros boxes selection Hboxes Hne Hvalid.
  destruct (selected_edge_values boxes selection Hboxes Hvalid)
    as (lefts & bottoms & rights & tops & Hl & Hb & Hr & Ht
        & (Hnl & Hnb & Hnr & Hnt) & Hinl & Hinb & Hinr & Hint).
  assert (size selection ≠ 0%nat) as Hsize.
  { intros Hzero. apply Hne, leibniz_equiv. by apply size_empty_iff. }
  destruct (sorted_lookup_exists (sorted lefts) lefts 0) as [l Hl0];
    [apply sorted_Permutation|lia|].
  destruct (sorted_lookup_exists (sorted bottoms) bottoms 0) as [b Hb0];
    [apply sorted_Permutation|lia|].
  destruct (sorted_lookup_exists (sorted_reverse rights) rights 0) as [r Hr0];
    [apply sorted_reverse_Permutation|lia|].
  destruct (sorted_lookup_exists (sorted_reverse tops) tops 0) as [t Ht0];
    [apply sorted_reverse_Permutation|lia|].
  exists l, b, r, t. split.
  { by apply (calculate_from_sorted boxes selection 0 lefts bottoms rights tops). }
  simpl in Hl0, Hb0, Hr0, Ht0.
  destruct (sorted_by_first Z.le _ lefts l (sorted_ascending lefts)
              (sorted_Permutation lefts) Hl0) as [Hl1 Hl2].
  destruct (sorted_by_first Z.le _ bottoms b (sorted_ascending bottoms)
              (sorted_Permutation bottoms) Hb0) as [Hb1 Hb2].
  destruct (sorted_by_first (flip Z.le) _ rights r (sorted_reverse_descending rights)
              (sorted_reverse_Permutation rights) Hr0) as [Hr1 Hr2].
  destruct (sorted_by_first (flip Z.le) _ tops t (sorted_reverse_descending tops)
              (sorted_reverse_Permutation tops) Ht0) as [Ht1 Ht2].
  unfold is_minimum, is_maximum.
  repeat split; try (by (apply Hinl || apply Hinb || apply Hinr || apply Hint)).
  - intros v Hv. by apply Hl2, Hinl.
  - intros v Hv. by apply Hb2, Hinb.
  - intros v Hv. by apply Hr2, Hinr.
  - intros v Hv. by apply Ht2, Hint.
Qed.

Lemma same_size_bounding_box_order_0_witness :
  ∃ l b r t,
    calculate_same_size_bounding_box scenario_boxes scenario_selection 0
    = Ok (PyList [l; b; r; t]) ∧
    is_minimum (selected_edge scenario_boxes scenario_selection 0) l ∧
    is_minimum (selected_edge scenario_boxes scenario_selection 1) b ∧
    is_maximum (selected_edge scenario_boxes scenario_selection 2) r ∧
    is_maximum (selected_edge scenario_boxes scenario_selection 3) t.
Proof.
  apply (proj1 same_size_bounding_box_order_0 scenario_boxes scenario_selection).
  - apply scenario_boxes_are_boxes.
  - apply scenario_selection_not_empty.
  - apply scenario_selection_valid.
Defined.

(** C3: for a list of boxes, a selection of valid page indices and
    [0 ≤ order_n] with [order_n + 1] below the size of the selection, the
    box for [order_n + 1] has left and bottom no smaller, and right and top
    no larger, than the box for [order_n]. *)
Theorem same_size_bounding_box_monotone (boxes : list pyseq) (selection : gset Z)
    (order_n : Z) :
  Forall Box boxes →
  (∀ pg, pg ∈ selection → 0 ≤ pg < Z.of_nat (length boxes)) →
  0 ≤ order_n → order_n + 1 < Z.of_nat (size selection) →
  ∃ l0 b0 r0 t0 l1 b1 r1 t1,
    calculate_same_size_bounding_box boxes selection order_n
    = Ok (PyList [l0; b0; r0; t0]) ∧
    calculate_same_size_bounding_box boxes selection (order_n + 1)
    = Ok (PyList [l1; b1; r1; t1]) ∧
    l0 ≤ l1 ∧ b0 ≤ b1 ∧ r1 ≤ r0 ∧ t1 ≤ t0.
Proof.
  intros Hboxes Hvalid Hn Hsize.
  destruct (selected_edge_values boxes selection Hboxes Hvalid)
    as (lefts & bottoms & rights & tops & Hl & Hb & Hr & Ht
        & (Hnl & Hnb & Hnr & Hnt) & _).
  destruct (sorted_lookup_exists (sorted lefts) lefts order_n) as [l0 Hl0];
    [apply sorted_Permutation|lia|].
  destruct (sorted_lookup_exists (sorted lefts) lefts (order_n + 1)) as [l1 Hl1];
    [apply sorted_Permutation|lia|].
  destruct (sorted_lookup_exists (sorted bottoms) bottoms order_n) as [b0 Hb0];
    [apply sorted_Permutation|lia|].
  destruct (sorted_lookup_exists (sorted bottoms) bottoms (order_n + 1)) as [b1 Hb1];
    [apply sorted_Permutation|lia|].
  destruct (sorted_lookup_exists (sorted_reverse rights) rights order_n) as [r0 Hr0];
    [apply sorted_reverse_Permutation|lia|].
  destruct (sorted_lookup_exists (sorted_reverse rights) rights (order_n + 1)) as [r1 Hr1];
    [apply sorted_reverse_Permutation|lia|].
  destruct (sorted_lookup_exists (sorted_reverse tops) tops order_n) as [t0 Ht0];
    [apply sorted_reverse_Permutation|lia|].
  destruct (sorted_lookup_exists (sorted_reverse tops) tops (order_n + 1)) as [t1 Ht1];
    [apply sorted_reverse_Permutation|lia|].
  exists l0, b0, r0, t0, l1, b1, r1, t1.
  assert (Z.to_nat order_n < Z.to_nat (order_n + 1))%nat as Hlt by lia.
  split; [|split].
  - by apply (calculate_from_sorted boxes selection order_n lefts bottoms rights tops).
  - apply (calculate_from_sorted boxes selection (order_n + 1) lefts bottoms rights tops);
      (done || lia).
  - repeat split.
    + exact (StronglySorted_lookup Z.le _ (sorted_ascending lefts) _ _ _ _ Hl0 Hl1 Hlt).
    + exact (StronglySorted_lookup Z.le _ (sorted_ascending bottoms) _ _ _ _ Hb0 Hb1 Hlt).
    + exact (StronglySorted_lookup (flip Z.le) _ (sorted_reverse_descending rights)
               _ _ _ _ Hr0 Hr1 Hlt).
    + exact (StronglySorted_lookup (flip Z.le) _ (sorted_reverse_descending tops)
               _ _ _ _ Ht0 Ht1 Hlt).
Qed.

Lemma same_size_bounding_box_monotone_witness :
  ∃ l0 b0 r0 t0 l1 b1 r1 t1,
    calculate_same_size_bounding_box scenario_boxes scenario_selection 0
    = Ok (PyList [l0; b0; r0; t0]) ∧
    calculate_same_size_bounding_box scenario_boxes scenario_selection (0 + 1)
    = Ok (PyList [l1; b1; r1; t1]) ∧
    l0 ≤ l1 ∧ b0 ≤ b1 ∧ r1 ≤ r0 ∧ t1 ≤ t0.
Proof.
  apply (same_size_bounding_box_monotone scenario_boxes scenario_selection 0).
  - apply scenario_boxes_are_boxes.
  - apply scenario_selection_valid.
  - lia.
  - vm_compute. reflexivity.
Defined.

(** ** Reads and writes of the settings object *)

(** C7, as stated, fails: after a call with an order statistic given,
    [args.samePageSize] is [True] where it was [False]. *)
Lemma order_stat_changes_args :
  ¬ leaves_args_unchanged scenario_boxes scenario_selection 3 order_stat_args.
Proof. unfold leaves_args_unchanged. vm_compute. intros [=]. Qed.

(** C7, as amended: [handle_same_page_size_option] writes to [args] only
    by setting [samePageSize] to [True] when [samePageSizeOrderStat] is
    given and not empty; otherwise, and in [validate_crop_arguments], every
    attribute of [args] is after the call what it was before, whatever the
    other inputs and whether or not the call raises. *)
Theorem handle_same_page_size_option_writes (boxes : list pyseq) (selection : gset Z)
    (num_selected : Z) (args : Args) :
  (handle_same_page_size_option boxes selection num_selected args).1
  = (if truthy_list (samePageSizeOrderStat args)
     then set_samePageSize true args else args) ∧
  (validate_crop_arguments args).1 = args.
Proof.
  split.
  - unfold handle_same_page_size_option. rewrite attr_bind.
    rewrite bind_then_preserves by solve_preserves.
    destruct (truthy_list (samePageSizeOrderStat args)); [|done].
    rewrite assign_bind. apply (preserves_bind _ _); solve_preserves.
  - assert (preserves validate_crop_arguments) as Hpreserves
      by (unfold validate_crop_arguments; solve_preserves).
    apply Hpreserves.
Qed.

(** ** SamePageSizePolicy *)

Lemma select_loop_frame (selection : gset Z) (ssl : list pyseq) (boxes : list pyseq) :
  ∀ (p_num : nat) (acc r : list pyseq),
    select_loop p_num boxes selection ssl acc = Ok r →
    ∃ r', r = acc ++ r' ∧ length r' = length boxes ∧
          ∀ i, Z.of_nat (p_num + i) ∉ selection → r' !! i = boxes !! i.
Proof.
  induction boxes as [|f_box boxes IH]; intros p_num acc r Hr; simpl in Hr.
  - injection Hr as <-. exists []. by rewrite app_nil_r.
  - case_bool_decide as Hsel.
    + apply IH in Hr as (r' & -> & Hlen & Hframe).
      exists (f_box :: r'). rewrite <-app_assoc. split; [done|].
      split; [simpl; lia|]. intros [|i] Hi; [done|]. simpl.
      apply Hframe. by replace (S p_num + i)%nat with (p_num + S i)%nat by lia.
    + apply bind_Ok_inv in Hr as (box & _ & Hr).
      apply IH in Hr as (r' & -> & Hlen & Hframe).
      exists (box :: r'). rewrite <-app_assoc. split; [done|].
      split; [simpl; lia|]. intros [|i] Hi.
      * by rewrite Nat.add_0_r in Hi.
      * simpl. apply Hframe.
        by replace (S p_num + i)%nat with (p_num + S i)%nat by lia.
Qed.

Lemma select_loop_returns (selection : gset Z) (ssl : list pyseq) (boxes : list pyseq) :
  ∀ (p_num : nat) (acc : list pyseq),
    (p_num + length boxes ≤ length ssl)%nat →
    ∃ r, select_loop p_num boxes selection ssl acc = Ok r.
Proof.
  induction boxes as [|f_box boxes IH]; intros p_num acc Hlen; simpl in *.
  - by eexists.
  - case_bool_decide as Hsel; [apply IH; lia|].
    destruct (lookup_lt_is_Some_2 ssl p_num) as [box Hbox]; [lia|].
    rewrite (py_index_lookup _ _ _ Hbox), bind_Ok. apply IH. lia.
Qed.

(** Whenever the call returns a list, it is the input list or the outcome
    of the last loop. *)
Lemma handle_same_page_size_option_Ok_inv (boxes : list pyseq) (selection : gset Z)
    (num_selected : Z) (args args' : Args) (r : list pyseq) :
  handle_same_page_size_option boxes selection num_selected args = (args', Ok r) →
  r = boxes ∨ ∃ ssl, select_loop 0 boxes selection ssl [] = Ok r.
Proof.
  unfold handle_same_page_size_option. rewrite attr_bind. intros H.
  apply prog_bind_Ok_inv in H as (s1 & order_n & _ & H).
  rewrite !attr_bind in H.
  destruct (negb _).
  - left. by injection H as _ <-.
  - right. apply prog_bind_Ok_inv in H as (s2 & box & _ & H).
    rewrite attr_bind in H.
    apply prog_bind_Ok_inv in H as (s3 & ssl & _ & H).
    exists ssl. unfold pure_call in H. by injection H as _ ->.
Qed.

Lemma calculate_same_size_bounding_box_returns (boxes : list pyseq)
    (selection : gset Z) (order_n : Z) :
  Forall Box boxes →
  (∀ pg, pg ∈ selection → 0 ≤ pg < Z.of_nat (length boxes)) →
  0 ≤ order_n < Z.of_nat (size selection) →
  ∃ l b r t,
    calculate_same_size_bounding_box boxes selection order_n = Ok (PyList [l; b; r; t]).
Proof.
  intros Hboxes Hvalid Hn.
  destruct (selected_edge_values boxes selection Hboxes Hvalid)
    as (lefts & bottoms & rights & tops & Hl & Hb & Hr & Ht
        & (Hnl & Hnb & Hnr & Hnt) & _).
  destruct (sorted_lookup_exists (sorted lefts) lefts order_n) as [l Hl0];
    [apply sorted_Permutation|lia|].
  destruct (sorted_lookup_exists (sorted bottoms) bottoms order_n) as [b Hb0];
    [apply sorted_Permutation|lia|].
  destruct (sorted_lookup_exists (sorted_reverse rights) rights order_n) as [r Hr0];
    [apply sorted_reverse_Permutation|lia|].
  destruct (sorted_lookup_exists (sorted_reverse tops) tops order_n) as [t Ht0];
    [apply sorted_reverse_Permutation|lia|].
  exists l, b, r, t.
  apply (calculate_from_sorted boxes selection order_n lefts bottoms rights tops);
    (done || lia).
Qed.

(** Within its contract, and with a fixed size that [float] accepts, the
    call returns a list. *)
Lemma handle_same_page_size_option_returns (boxes : list pyseq) (selection : gset Z)
    (num_selected : Z) (args : Args) :
  well_formed_call boxes selection num_selected args →
  fixed_size_converts args →
  returns (handle_same_page_size_option boxes selection num_selected args).
Proof.
  intros (Hboxes & Hne & Hvalid & -> & Hmask & Hfixed) Hconverts.
  unfold fixed_size_converts, after_order_stat in Hconverts.
  assert (size selection ≠ 0%nat) as Hsize.
  { intros Hzero. apply Hne, leibniz_equiv. by apply size_empty_iff. }
  unfold handle_same_page_size_option. rewrite attr_bind.
  lazymatch goal with
  | |- returns ((_ ≫= ?tail) _) =>
      assert (∀ s order_n,
                 samePageSize4 s = samePageSize4 args →
                 setSamePageSize s = setSamePageSize args →
                 (samePageSize s = false →
                  ∀ box, setSamePageSize args = Some box →
                         ∃ floats, result_map py_float box = Ok floats) →
                 0 ≤ order_n < Z.of_nat (size selection) →
                 returns (tail order_n s)) as Htail
  end.
  { intros s order_n Hm Hf Hfloat Hn. rewrite !attr_bind.
    lazymatch goal with
    | |- returns ((if _ then _ else _ ≫= ?cont) _) =>
        assert (∀ box, Box box → returns (cont box s)) as Hcont
    end.
    { intros box Hbox. rewrite attr_bind, Hm.
      assert (∀ ssl, length ssl = length boxes →
                     returns (pure_call (select_loop 0 boxes selection ssl []) s : Args * _))
        as Hloop.
      { intros ssl Hlen. apply returns_pure_call, select_loop_returns. lia. }
      destruct (samePageSize4 args) as [[|char mask]|] eqn:Hmask4; simpl truthy_str; cbv iota.
      - rewrite ret_bind. apply Hloop, length_replicate.
      - simpl as_str. rewrite pure_call_bind_Ok.
        rewrite combine_tuple_lists_with_mask_refines.
        + rewrite pure_call_bind_Ok. apply Hloop.
          rewrite combine_with_mask_length, length_replicate. lia.
        + eapply Forall_impl; [exact Hboxes|]. intros b. apply Box_fits. by apply Hmask.
        + apply Forall_replicate. apply Box_fits; [by apply Hmask|done].
      - rewrite ret_bind. apply Hloop, length_replicate. }
    destruct (samePageSize s) eqn:Hsame; simpl.
    - destruct (calculate_same_size_bounding_box_returns boxes selection order_n)
        as (l & b & r & t & ->); [done..|].
      rewrite pure_call_bind_Ok. by apply Hcont.
    - rewrite Hf. destruct (setSamePageSize args) as [[|x box]|] eqn:Hset; simpl;
        try apply returns_ret.
      destruct (Hfloat eq_refl (x :: box) eq_refl) as [floats Hfloats].
      rewrite pure_call_bind_Ok, Hfloats, pure_call_bind_Ok, ret_bind.
      apply Hcont. unfold Box. cbn [items].
      rewrite (result_map_length _ _ _ Hfloats). by apply Hfixed. }
  destruct (samePageSizeOrderStat args) as [[|first rest]|] eqn:Hstat;
    simpl truthy_list in *; cbv iota in *.
  - apply (Htail args 0); (done || lia).
  - apply (Htail (set_samePageSize true args)
             (Z.max (Z.min first (Z.of_nat (size selection) - 1)) 0)); (done || lia).
  - apply (Htail args 0); (done || lia).
Qed.

Lemma partial_selection_well_formed :
  well_formed_call scenario_boxes partial_selection 2 same_size_args.
Proof.
  unfold well_formed_call. split; [apply scenario_boxes_are_boxes|].
  split; [|split; [|split; [by vm_compute|split]]].
  - intros Hempty. assert (0 ∈ partial_selection) as Hin by (by vm_compute).
    rewrite Hempty in Hin. by apply not_elem_of_empty in Hin.
  - unfold partial_selection. intros pg Hpg.
    apply elem_of_union in Hpg as [Hpg|Hpg];
      apply elem_of_singleton in Hpg; subst; simpl; lia.
  - intros mask [= <-]. reflexivity.
  - intros box [=].
Qed.

(** C8: whenever [handle_same_page_size_option] returns a list, it has the
    length of the input list and, at every page index outside the
    selection, the input's box; and within its contract, with a fixed size
    that [float] accepts, the call does return a list. *)
Theorem handle_same_page_size_option_frame :
  (∀ (boxes : list pyseq) (selection : gset Z) (num_selected : Z)
     (args args' : Args) (r : list pyseq),
     handle_same_page_size_option boxes selection num_selected args = (args', Ok r) →
     length r = length boxes ∧
     ∀ p : nat, Z.of_nat p ∉ selection → r !! p = boxes !! p) ∧
  (∀ (boxes : list pyseq) (selection : gset Z) (num_selected : Z) (args : Args),
     well_formed_call boxes selection num_selected args →
     fixed_size_converts args →
     returns (handle_same_page_size_option boxes selection num_selected args)).
Proof.
  split; [|apply handle_same_page_size_option_returns].
  intros boxes selection num_selected args args' r Hr.
  apply handle_same_page_size_option_Ok_inv in Hr as [->|[ssl Hr]]; [done|].
  apply select_loop_frame in Hr as (r' & -> & Hlen & Hframe). simpl.
  split; [done|]. intros p Hp. by apply Hframe.
Qed.

Lemma handle_same_page_size_option_frame_witness :
  ∃ args' r,
    handle_same_page_size_option scenario_boxes partial_selection 2 same_size_args
    = (args', Ok r) ∧
    length r = length scenario_boxes ∧
    ∀ p : nat, Z.of_nat p ∉ partial_selection → r !! p = scenario_boxes !! p.
Proof.
  destruct handle_same_page_size_option_frame as [Hframe Hreturns].
  assert (fixed_size_converts same_size_args) as Hconverts
    by (intros _ box Hbox; discriminate Hbox).
  destruct (Hreturns scenario_boxes partial_selection 2 same_size_args
              partial_selection_well_formed Hconverts) as (args' & r & Hr).
  exists args', r. split; [exact Hr|]. exact (Hframe _ _ _ _ _ _ Hr).
Defined.

(** ** validate_settings *)

Lemma not_four_element_list_total (v : pyval) :
  ∃ b, not_four_element_list v = Ok b.
Proof. destruct v; simpl; eauto. Qed.

Lemma four_element_list_accepted (v : pyval) :
  four_element_list v → not_four_element_list v = Ok false.
Proof.
  intros (vs & -> & Hlen).
  by destruct vs as [|v0 [|v1 [|v2 [|v3 [|v4 vs]]]]].
Qed.

(** A configuration that passes all four checks is returned as it is, with
    no warning. *)
Lemma validate_settings_nothing_to_repair (c : PageConfiguration) :
  py_le_zero (res_x c) = Ok false → py_le_zero (res_y c) = Ok false →
  not_four_element_list (percent_retain_4 c) = Ok false →
  not_four_element_list (absolute_precrop_4 c) = Ok false →
  validate_settings c = (c, Ok []).
Proof.
  intros Hx Hy Hpr Hap. unfold validate_settings.
  rewrite attr_bind, Hx, pure_call_bind_Ok, ret_bind.
  rewrite attr_bind, Hy, pure_call_bind_Ok, ret_bind.
  rewrite attr_bind, Hpr, pure_call_bind_Ok, ret_bind.
  by rewrite attr_bind, Hap, pure_call_bind_Ok, ret_bind.
Qed.

(** After a call that returned, all four checks pass. *)
Lemma validate_settings_repairs (c c1 : PageConfiguration) (ws : list string) :
  validate_settings c = (c1, Ok ws) →
  py_le_zero (res_x c1) = Ok false ∧ py_le_zero (res_y c1) = Ok false ∧
  not_four_element_list (percent_retain_4 c1) = Ok false ∧
  not_four_element_list (absolute_precrop_4 c1) = Ok false.
Proof.
  unfold validate_settings. rewrite attr_bind.
  destruct (py_le_zero (res_x c)) as [bad_x|e] eqn:Hx; [|discriminate].
  rewrite pure_call_bind_Ok.
  intros H. apply prog_bind_Ok_inv in H as (s1 & ws1 & H1 & H).
  rewrite attr_bind in H.
  destruct (py_le_zero (res_y s1)) as [bad_y|e] eqn:Hy; [|discriminate].
  rewrite pure_call_bind_Ok in H.
  apply prog_bind_Ok_inv in H as (s2 & ws2 & H2 & H).
  rewrite attr_bind in H.
  destruct (not_four_element_list (percent_retain_4 s2)) as [bad_pr|e] eqn:Hpr;
    [|discriminate].
  rewrite pure_call_bind_Ok in H.
  apply prog_bind_Ok_inv in H as (s3 & ws3 & H3 & H).
  rewrite attr_bind in H.
  destruct (not_four_element_list (absolute_precrop_4 s3)) as [bad_ap|e] eqn:Hap;
    [|discriminate].
  rewrite pure_call_bind_Ok in H.
  apply prog_bind_Ok_inv in H as (s4 & ws4 & H4 & H).
  injection H as <- <-.
  destruct bad_x, bad_y, bad_pr, bad_ap;
    injection H1 as <- <-; injection H2 as <- <-;
    injection H3 as <- <-; injection H4 as <- <-;
    simpl in *; done.
Qed.

(** C9: after a call of [validate_settings] that returned, a second call
    changes no attribute and returns no warning. *)
Theorem validate_settings_idempotent (c c1 : PageConfiguration) (ws : list string) :
  validate_settings c = (c1, Ok ws) → validate_settings c1 = (c1, Ok []).
Proof.
  intros H. apply validate_settings_repairs in H as (Hx & Hy & Hpr & Hap).
  by apply validate_settings_nothing_to_repair.
Qed.

Lemma validate_settings_idempotent_witness :
  validate_settings (validate_settings broken_configuration).1
  = ((validate_settings broken_configuration).1, Ok []).
Proof.
  apply (validate_settings_idempotent broken_configuration _
           [x_resolution_warning; y_resolution_warning;
            percent_retain_4_warning; absolute_precrop_4_warning]).
  reflexivity.
Defined.

(** A resolution warning is in the list exactly when its check failed. *)
Lemma resolution_warnings_issued (bad_x bad_y bad_pr bad_ap : bool) :
  let ws := (if bad_x then [x_resolution_warning] else []) ++
            (if bad_y then [y_resolution_warning] else []) ++
            (if bad_pr then [percent_retain_4_warning] else []) ++
            (if bad_ap then [absolute_precrop_4_warning] else []) in
  (x_resolution_warning ∈ ws ↔ bad_x = true) ∧
  (y_resolution_warning ∈ ws ↔ bad_y = true).
Proof.
  destruct bad_x, bad_y, bad_pr, bad_ap; simpl; split; split; intros H;
    first [ reflexivity
          | discriminate H
          | apply (bool_decide_unpack _); by vm_compute
          | exfalso; revert H; apply (bool_decide_unpack _); by vm_compute ].
Qed.

(** The outcome of a call in terms of the outcomes of its four checks. *)
Lemma validate_settings_by_checks (c : PageConfiguration) (bad_x bad_y bad_pr bad_ap : bool) :
  py_le_zero (res_x c) = Ok bad_x → py_le_zero (res_y c) = Ok bad_y →
  not_four_element_list (percent_retain_4 c) = Ok bad_pr →
  not_four_element_list (absolute_precrop_4 c) = Ok bad_ap →
  validate_settings c
  = ((if bad_ap then set_absolute_precrop_4 (PList [PNum 0; PNum 0; PNum 0; PNum 0])
      else id)
       ((if bad_pr then set_percent_retain_4 (PList (replicate 4 (percent_retain c)))
         else id)
          ((if bad_y then set_res_y (PNum DEFAULT_DPI) else id)
             ((if bad_x then set_res_x (PNum DEFAULT_DPI) else id) c))),
     Ok ((if bad_x then [x_resolution_warning] else []) ++
         (if bad_y then [y_resolution_warning] else []) ++
         (if bad_pr then [percent_retain_4_warning] else []) ++
         (if bad_ap then [absolute_precrop_4_warning] else []))).
Proof.
  intros Hx Hy Hpr Hap. destruct c. simpl in *.
  unfold validate_settings, mbind, prog_bind, attr, assign, pure_call, mret, prog_ret.
  simpl. rewrite Hx. destruct bad_x; simpl; rewrite Hy;
    destruct bad_y; simpl; rewrite Hpr;
    destruct bad_pr; simpl; rewrite Hap;
    destruct bad_ap; reflexivity.
Qed.

Lemma positive_number_accepted (v : pyval) :
  positive_number v → py_le_zero v = Ok false.
Proof.
  intros (n & Hn & Hpos). unfold py_le_zero. rewrite Hn. f_equal.
  apply Z.leb_gt. lia.
Qed.

(** C5, as stated, fails in its last part: the comparison [self.res_x <= 0]
    raises [TypeError] when the resolution is not a number, as for a
    configuration whose [res_x] is [None]. *)
Lemma validate_settings_none_resolution_not_returned :
  ¬ returns (validate_settings (set_res_x PNone default_values)).
Proof. intros (c & ws & Hreturned). vm_compute in Hreturned. discriminate Hreturned. Qed.

(** C5, as amended: with [res_x = -5] and the other checked attributes
    valid, [validate_settings] sets [res_x] to 72, changes nothing else,
    and returns exactly one warning, which mentions the X resolution. More
    generally, when both resolutions are numbers the call does not raise, a
    resolution ends as the default DPI if it was not positive and as it was
    otherwise, and its warning is issued exactly when it was not positive. *)
Theorem validate_settings_resolution :
  (∀ c : PageConfiguration,
     res_x c = PNum (-5) → positive_number (res_y c) →
     four_element_list (percent_retain_4 c) →
     four_element_list (absolute_precrop_4 c) →
     validate_settings c = (set_res_x (PNum 72) c, Ok [x_resolution_warning]) ∧
     str_contains "X resolution" x_resolution_warning = true) ∧
  (∀ (c : PageConfiguration) (x y : Z),
     number_value (res_x c) = Some x → number_value (res_y c) = Some y →
     ∃ c' ws,
       validate_settings c = (c', Ok ws) ∧
       res_x c' = (if x <=? 0 then PNum DEFAULT_DPI else res_x c) ∧
       res_y c' = (if y <=? 0 then PNum DEFAULT_DPI else res_y c) ∧
       (x_resolution_warning ∈ ws ↔ x ≤ 0) ∧
       (y_resolution_warning ∈ ws ↔ y ≤ 0)).
Proof.
  split.
  - intros c Hx Hy Hpr Hap. split; [|reflexivity].
    apply (validate_settings_by_checks c true false false false).
    + by rewrite Hx.
    + by apply positive_number_accepted.
    + by apply four_element_list_accepted.
    + by apply four_element_list_accepted.
  - intros c x y Hx Hy.
    destruct (not_four_element_list_total (percent_retain_4 c)) as [bad_pr Hpr].
    destruct (not_four_element_list_total (absolute_precrop_4 c)) as [bad_ap Hap].
    eexists _, _. split.
    { apply validate_settings_by_checks; [| |exact Hpr|exact Hap].
      - unfold py_le_zero. by rewrite Hx.
      - unfold py_le_zero. by rewrite Hy. }
    rewrite <-!Z.leb_le.
    split; [by destruct (x <=? 0), (y <=? 0), bad_pr, bad_ap|].
    split; [by destruct (x <=? 0), (y <=? 0), bad_pr, bad_ap|].
    apply resolution_warnings_issued.
Qed.

Lemma validate_settings_resolution_witness :
  validate_settings scenario_configuration
  = (set_res_x (PNum 72) scenario_configuration, Ok [x_resolution_warning]) ∧
  str_contains "X resolution" x_resolution_warning = true.
Proof.
  apply (proj1 validate_settings_resolution scenario_configuration).
  - reflexivity.
  - exists 72. split; [reflexivity|lia].
  - by exists (replicate 4 (PNum DEFAULT_PERCENT_RETAIN)).
  - by exists [PNum 0; PNum 0; PNum 0; PNum 0].
Defined.

(** ** Outside the contracts *)

(** A mask with a [t] beyond the fourth position indexes past a box. *)
Example combine_five_flags_raises :
  combine_tuple_lists_with_mask "fffft" [PyTuple [1; 2; 3; 4]] [PyTuple [10; 20; 30; 40]]
  = Raise IndexError.
Proof. reflexivity. Qed.

(** An empty selection leaves the sorted lists empty, and index 0 raises. *)
Example calculate_empty_selection_raises :
  calculate_same_size_bounding_box scenario_boxes ∅ 0 = Raise IndexError.
Proof. by vm_compute. Qed.

(** An order statistic that was not clamped to the selection raises. *)
Example calculate_order_n_too_large_raises :
  calculate_same_size_bounding_box scenario_boxes scenario_selection 3 = Raise IndexError.
Proof. by vm_compute. Qed.

(** A resolution that is not a number makes the comparison raise, after
    the repairs made before it. *)
Example validate_settings_none_resolution_raises :
  validate_settings (set_res_y PNone scenario_configuration)
  = (set_res_y PNone (set_res_x (PNum 72) scenario_configuration), Raise TypeError).
Proof. reflexivity. Qed.

(** * Further properties of the code *)

(** ** combine_tuple_lists_with_mask on arbitrary inputs *)

Lemma py_index_out_of_range {A : Type} (l : list A) (i : Z) :
  i < - Z.of_nat (length l) ∨ Z.of_nat (length l) ≤ i → py_index l i = Raise IndexError.
Proof.
  intros Hi. unfold py_index.
  destruct (i <? 0) eqn:Hneg.
  - apply Z.ltb_lt in Hneg.
    replace (0 <=? Z.of_nat (length l) + i) with false
      by (symmetry; apply Z.leb_gt; lia).
    done.
  - apply Z.ltb_ge in Hneg.
    replace (i <? Z.of_nat (length l)) with false by (symmetry; apply Z.ltb_ge; lia).
    by rewrite andb_false_r.
Qed.

Lemma py_index_only_IndexError {A : Type} (l : list A) (i : Z) (e : exn) :
  py_index l i = Raise e → e = IndexError.
Proof.
  unfold py_index. destruct (_ && _); [|congruence].
  destruct (l !! _); congruence.
Qed.

Lemma masked_box_empty_mask (d o : list Z) : masked_box "" d o = d.
Proof. reflexivity. Qed.

Lemma masked_box_nil_l (mask : string) (o : list Z) : masked_box mask [] o = [].
Proof. by destruct mask. Qed.

Lemma masked_box_nil_r (mask : string) (d : list Z) : masked_box mask d [] = d.
Proof. by destruct mask, d. Qed.

Lemma masked_box_length (mask : string) :
  ∀ d o : list Z, length (masked_box mask d o) = length d.
Proof.
  induction mask as [|char mask IH]; intros [|x d] [|y o]; simpl; try done.
  by rewrite IH.
Qed.

(** The inner loop on any mask and any two sequences. *)
Lemma mask_loop_outcome (mask : string) :
  ∀ (index : nat) (d : list Z) (o : pyseq),
    mask_loop index mask d o
    = if t_in_range index mask (length d) (length (items o))
      then Ok (take index d ++ masked_box mask (drop index d) (drop index (items o)))
      else Raise IndexError.
Proof.
  induction mask as [|char mask IH]; intros index d o; cbn [mask_loop t_in_range].
  - by rewrite masked_box_empty_mask, take_drop.
  - destruct (Ascii.eqb char "t") eqn:Hchar.
    + destruct (Nat.ltb_spec index (length (items o))) as [Ho|Ho].
      * destruct (lookup_lt_is_Some_2 (items o) index) as [y Hy]; [done|].
        unfold py_getitem. rewrite (py_index_lookup _ _ _ Hy), bind_Ok.
        unfold py_setitem. destruct (decide (index < length d)%nat) as [Hd|Hd].
        -- destruct (lookup_lt_is_Some_2 d index) as [x Hx]; [done|].
           rewrite bind_Ok, IH, length_insert.
           replace (index <? length d)%nat with true by (symmetry; by apply Nat.ltb_lt).
           cbn [andb]. destruct (t_in_range _ _ _ _); [|done]. f_equal.
           rewrite (drop_S _ _ _ Hx), (drop_S _ _ _ Hy). cbn [masked_box]. rewrite ?Hchar.
           rewrite drop_insert_lt by lia.
           rewrite (take_S_r _ _ y) by (by apply list_lookup_insert_eq).
           rewrite take_insert_ge by lia. by rewrite <-app_assoc.
        -- replace (index <? length d)%nat with false by (symmetry; apply Nat.ltb_ge; lia).
           done.
      * unfold py_getitem. rewrite py_index_out_of_range by lia.
        by rewrite andb_false_r.
    + rewrite IH. cbn [andb]. destruct (t_in_range _ _ _ _); [|done]. f_equal.
      destruct (d !! index) as [x|] eqn:Hx; [destruct (items o !! index) as [y|] eqn:Hy|].
      * rewrite (drop_S _ _ _ Hx), (drop_S _ _ _ Hy). cbn [masked_box]. rewrite ?Hchar.
        rewrite (take_S_r _ _ _ Hx). by rewrite <-app_assoc.
      * apply lookup_ge_None in Hy.
        rewrite (drop_ge (items o) index), (drop_ge (items o) (S index)) by lia.
        by rewrite !masked_box_nil_r, !take_drop.
      * apply lookup_ge_None in Hx.
        rewrite (drop_ge d index), (drop_ge d (S index)) by lia.
        rewrite !masked_box_nil_l. by rewrite !take_ge by lia.
Qed.

Lemma pair_loop_outcome (mask : string) (pairs : list (pyseq * pyseq)) :
  ∀ final_list : list pyseq,
    pair_loop mask pairs final_list
    = if forallb (mask_in_range mask) pairs
      then Ok (final_list ++
               ((λ p, PyTuple (masked_box mask (items p.1) (items p.2))) <$> pairs))
      else Raise IndexError.
Proof.
  induction pairs as [|[d o] pairs IH]; intros final_list; simpl.
  - by rewrite app_nil_r.
  - rewrite mask_loop_outcome. unfold mask_in_range at 1. simpl.
    destruct (t_in_range _ _ _ _); [|done].
    rewrite bind_Ok, IH. simpl. destruct (forallb _ _); [|done].
    by rewrite drop_0, <-app_assoc.
Qed.

Lemma t_in_range_spec (mask : string) :
  ∀ (index nd no : nat),
    t_in_range index mask nd no = true ↔
    ∀ i, String.get i mask = Some "t"%char → (index + i < nd)%nat ∧ (index + i < no)%nat.
Proof.
  induction mask as [|char mask IH]; intros index nd no; simpl.
  - split; [intros _ i [=]|done].
  - rewrite andb_true_iff, IH. split.
    + intros [Hhead Htail] [|i] Hi.
      * injection Hi as ->. simpl in Hhead.
        apply andb_true_iff in Hhead as [?%Nat.ltb_lt ?%Nat.ltb_lt]. lia.
      * specialize (Htail i Hi). lia.
    + intros Hall. split.
      * destruct (Ascii.eqb char "t") eqn:Hchar; [|done].
        apply Ascii.eqb_eq in Hchar as ->.
        destruct (Hall 0%nat eq_refl) as [? ?].
        apply andb_true_iff. split; apply Nat.ltb_lt; lia.
      * intros i Hi. specialize (Hall (S i) Hi). lia.
Qed.

Lemma mask_in_range_spec (mask : string) (p : pyseq * pyseq) :
  mask_in_range mask p = true ↔ t_positions_in_range mask p.1 p.2.
Proof. unfold mask_in_range, t_positions_in_range. by rewrite t_in_range_spec. Qed.

Lemma zip_as_zip_with (mask : string) (dl ol : list pyseq) :
  (λ p, PyTuple (masked_box mask (items p.1) (items p.2))) <$> zip dl ol
  = combine_with_mask mask dl ol.
Proof.
  unfold combine_with_mask. revert ol.
  induction dl as [|d dl IH]; intros [|o ol]; simpl; try done. by rewrite <-IH.
Qed.

Lemma forallb_true_Forall {A : Type} (f : A → bool) (l : list A) :
  forallb f l = true ↔ Forall (λ x, f x = true) l.
Proof.
  induction l as [|x l IH]; simpl; [done|].
  by rewrite andb_true_iff, Forall_cons, IH.
Qed.

Lemma all_in_range_spec (mask : string) (pairs : list (pyseq * pyseq)) :
  forallb (mask_in_range mask) pairs = true ↔
  Forall (λ p, t_positions_in_range mask p.1 p.2) pairs.
Proof.
  rewrite forallb_true_Forall. apply Forall_iff. intros p. apply mask_in_range_spec.
Qed.

(** X1: the call returns exactly when, in every pair that [zip] forms,
    each [t] of the mask stands at a position that both boxes have; it then
    returns the masked combination of the pairs. In every other case it
    raises [IndexError]. *)
Theorem combine_tuple_lists_with_mask_outcome (mask : string) (dl ol : list pyseq) :
  (Forall (λ p, t_positions_in_range mask p.1 p.2) (zip dl ol) →
   combine_tuple_lists_with_mask mask dl ol = Ok (combine_with_mask mask dl ol)) ∧
  (¬ Forall (λ p, t_positions_in_range mask p.1 p.2) (zip dl ol) →
   combine_tuple_lists_with_mask mask dl ol = Raise IndexError).
Proof.
  unfold combine_tuple_lists_with_mask. rewrite pair_loop_outcome.
  destruct (forallb (mask_in_range mask) (zip dl ol)) eqn:Hall; split.
  - intros _. simpl. by rewrite zip_as_zip_with.
  - intros Hnot. exfalso. by apply Hnot, all_in_range_spec.
  - intros Hyes. apply all_in_range_spec in Hyes. congruence.
  - done.
Qed.

Lemma combine_tuple_lists_with_mask_outcome_witness :
  combine_tuple_lists_with_mask "tf" [PyList [1; 2]] [PyTuple [9]] = Ok [PyTuple [9; 2]] ∧
  combine_tuple_lists_with_mask "ft" [PyList [1; 2]] [PyTuple [9]] = Raise IndexError.
Proof.
  split.
  - apply (proj1 (combine_tuple_lists_with_mask_outcome "tf" [PyList [1; 2]] [PyTuple [9]])).
    apply Forall_cons. split; [|by apply Forall_nil].
    intros i Hi. destruct i as [|[|i]]; simpl in *; [lia|discriminate..].
  - apply (proj2 (combine_tuple_lists_with_mask_outcome "ft" [PyList [1; 2]] [PyTuple [9]])).
    intros Hall. apply Forall_cons in Hall as [Hall _].
    destruct (Hall 1%nat eq_refl) as [_ Hlt]. simpl in Hlt. lia.
Defined.

Lemma pair_loop_accumulates (mask : string) (pairs : list (pyseq * pyseq)) :
  ∀ final_list : list pyseq,
    pair_loop mask pairs final_list
    = (r ← pair_loop mask pairs []; Ok (final_list ++ r)).
Proof.
  intros final_list. rewrite !pair_loop_outcome.
  destruct (forallb _ _); simpl; done.
Qed.

Lemma pair_loop_app (mask : string) (pairs1 pairs2 : list (pyseq * pyseq)) :
  ∀ final_list : list pyseq,
    pair_loop mask (pairs1 ++ pairs2) final_list
    = (r ← pair_loop mask pairs1 final_list; pair_loop mask pairs2 r).
Proof.
  induction pairs1 as [|[d o] pairs1 IH]; intros final_list; simpl; [done|].
  destruct (mask_loop 0 mask (items d) o); simpl; [apply IH|done].
Qed.

(** X2: the combination of two concatenated lists is the combination of
    the first parts followed by the combination of the second parts, with
    the first exception raised in that order, provided the first parts
    have the same length. *)
Theorem combine_tuple_lists_with_mask_app (mask : string) (dl1 dl2 ol1 ol2 : list pyseq) :
  length dl1 = length ol1 →
  combine_tuple_lists_with_mask mask (dl1 ++ dl2) (ol1 ++ ol2)
  = (r1 ← combine_tuple_lists_with_mask mask dl1 ol1;
     r2 ← combine_tuple_lists_with_mask mask dl2 ol2;
     Ok (r1 ++ r2)).
Proof.
  intros Hlen. unfold combine_tuple_lists_with_mask.
  rewrite zip_with_app by done. rewrite pair_loop_app.
  destruct (pair_loop mask (zip dl1 ol1) []) as [r1|e]; simpl; [|done].
  apply pair_loop_accumulates.
Qed.

Lemma combine_tuple_lists_with_mask_app_witness :
  combine_tuple_lists_with_mask "tfft"
    ([PyTuple [1; 2; 3; 4]] ++ [PyTuple [5; 6; 7; 8]])
    ([PyTuple [10; 20; 30; 40]] ++ [PyTuple [50; 60; 70; 80]])
  = (r1 ← combine_tuple_lists_with_mask "tfft" [PyTuple [1; 2; 3; 4]] [PyTuple [10; 20; 30; 40]];
     r2 ← combine_tuple_lists_with_mask "tfft" [PyTuple [5; 6; 7; 8]] [PyTuple [50; 60; 70; 80]];
     Ok (r1 ++ r2)).
Proof. apply combine_tuple_lists_with_mask_app. reflexivity. Defined.

(** X3: whatever the mask and the inputs, every box of a returned list is
    a tuple with as many entries as the default box at its position: the
    mask replaces entries and never adds or removes one. *)
Theorem combine_tuple_lists_with_mask_shape (mask : string) (dl ol r : list pyseq) :
  combine_tuple_lists_with_mask mask dl ol = Ok r →
  Forall is_tuple r ∧
  ∀ i d b, dl !! i = Some d → r !! i = Some b → length (items b) = length (items d).
Proof.
  unfold combine_tuple_lists_with_mask. rewrite pair_loop_outcome.
  destruct (forallb _ _); [|discriminate]. simpl. intros [= <-]. split.
  - apply Forall_fmap, Forall_forall. by intros p _.
  - intros i d b Hd Hb. apply list_lookup_fmap_Some in Hb as ([d' o] & -> & Hp).
    apply lookup_zip_with_Some in Hp as (d'' & o'' & [= <- <-] & Hd' & _).
    simpl. rewrite masked_box_length. congruence.
Qed.

Lemma combine_tuple_lists_with_mask_shape_witness :
  Forall is_tuple [PyTuple [9; 2; 3]] ∧
  ∀ i d b, [PyList [1; 2; 3]] !! i = Some d → [PyTuple [9; 2; 3]] !! i = Some b →
           length (items b) = length (items d).
Proof.
  apply (combine_tuple_lists_with_mask_shape "t" [PyList [1; 2; 3]] [PyTuple [9]]).
  reflexivity.
Defined.

(** ** calculate_same_size_bounding_box at and beyond its contract *)

Lemma py_index_negative {A : Type} (l : list A) (i : Z) :
  i < 0 → 0 ≤ Z.of_nat (length l) + i →
  py_index l i = py_index l (Z.of_nat (length l) + i).
Proof.
  intros Hneg Hnonneg. unfold py_index.
  replace (i <? 0) with true by (symmetry; apply Z.ltb_lt; lia).
  by replace (Z.of_nat (length l) + i <? 0) with false
    by (symmetry; apply Z.ltb_ge; lia).
Qed.

Lemma result_map_only_raises {A B : Type} (f : A → result B) (xs : list A) (e0 e : exn) :
  (∀ x e', f x = Raise e' → e' = e0) → result_map f xs = Raise e → e = e0.
Proof.
  intros Hf. induction xs as [|x xs IH]; simpl; [discriminate|].
  destruct (f x) as [y|e'] eqn:Hx; simpl.
  - destruct (result_map f xs) as [ys|e'']; simpl; [discriminate|].
    intros [= <-]. by apply IH.
  - intros [= <-]. by eapply Hf.
Qed.

Lemma edge_values_length (boxes : list pyseq) (selection : gset Z) (k : Z) (vs : list Z) :
  edge_values boxes selection k = Ok vs → length vs = size selection.
Proof.
  intros Hvs. apply result_map_Ok_inv in Hvs. symmetry. apply (Forall2_length _ _ _ Hvs).
Qed.

Lemma edge_values_only_IndexError (boxes : list pyseq) (selection : gset Z) (k : Z) (e : exn) :
  edge_values boxes selection k = Raise e → e = IndexError.
Proof.
  apply result_map_only_raises. intros pg e'.
  destruct (py_index boxes pg) as [box|e''] eqn:Hbox; simpl.
  - apply py_index_only_IndexError.
  - intros [= <-]. by eapply py_index_only_IndexError.
Qed.

Lemma edge_values_Ok_page (boxes : list pyseq) (selection : gset Z) (k : Z)
    (vs : list Z) (pg : Z) :
  edge_values boxes selection k = Ok vs → pg ∈ selection →
  ∃ box v, py_index boxes pg = Ok box ∧ py_getitem box k = Ok v.
Proof.
  intros Hvs Hpg. apply result_map_Ok_inv in Hvs.
  apply elem_of_elements, list_elem_of_lookup in Hpg as [i Hi].
  destruct (Forall2_lookup_l _ _ _ _ _ Hvs Hi) as (v & _ & Hv).
  apply bind_Ok_inv in Hv as (box & Hbox & Hv). eauto.
Qed.

Lemma length_sorted (xs : list Z) : length (sorted xs) = length xs.
Proof. apply Permutation_length, sorted_Permutation. Qed.

Lemma length_sorted_reverse (xs : list Z) : length (sorted_reverse xs) = length xs.
Proof. apply Permutation_length, sorted_reverse_Permutation. Qed.

(** The call is the four generators followed by the four lookups. *)
Lemma calculate_same_size_bounding_box_unfold (boxes : list pyseq) (selection : gset Z)
    (order_n : Z) :
  calculate_same_size_bounding_box boxes selection order_n
  = (lefts ← edge_values boxes selection 0;
     bottoms ← edge_values boxes selection 1;
     rights ← edge_values boxes selection 2;
     tops ← edge_values boxes selection 3;
     l ← py_index (sorted lefts) order_n;
     b ← py_index (sorted bottoms) order_n;
     r ← py_index (sorted_reverse rights) order_n;
     t ← py_index (sorted_reverse tops) order_n;
     Ok (PyList [l; b; r; t])).
Proof.
  unfold calculate_same_size_bounding_box.
  destruct (edge_values boxes selection 0) as [lefts|]; [|done].
  destruct (edge_values boxes selection 1) as [bottoms|]; [|done].
  destruct (edge_values boxes selection 2) as [rights|]; [|done].
  destruct (edge_values boxes selection 3) as [tops|]; [|done].
  simpl.
  destruct (py_index (sorted lefts) order_n); [|done].
  destruct (py_index (sorted bottoms) order_n); [|done].
  destruct (py_index (sorted_reverse rights) order_n); [|done].
  by destruct (py_index (sorted_reverse tops) order_n).
Qed.

Lemma calculate_only_IndexError (boxes : list pyseq) (selection : gset Z)
    (order_n : Z) (e : exn) :
  calculate_same_size_bounding_box boxes selection order_n = Raise e → e = IndexError.
Proof.
  rewrite calculate_same_size_bounding_box_unfold.
  destruct (edge_values boxes selection 0) as [lefts|e0] eqn:H0; simpl;
    [|intros [= <-]; by eapply edge_values_only_IndexError].
  destruct (edge_values boxes selection 1) as [bottoms|e1] eqn:H1; simpl;
    [|intros [= <-]; by eapply edge_values_only_IndexError].
  destruct (edge_values boxes selection 2) as [rights|e2] eqn:H2; simpl;
    [|intros [= <-]; by eapply edge_values_only_IndexError].
  destruct (edge_values boxes selection 3) as [tops|e3] eqn:H3; simpl;
    [|intros [= <-]; by eapply edge_values_only_IndexError].
  destruct (py_index (sorted lefts) order_n) eqn:Hl; simpl;
    [|intros [= <-]; by eapply py_index_only_IndexError].
  destruct (py_index (sorted bottoms) order_n) eqn:Hb; simpl;
    [|intros [= <-]; by eapply py_index_only_IndexError].
  destruct (py_index (sorted_reverse rights) order_n) eqn:Hr; simpl;
    [|intros [= <-]; by eapply py_index_only_IndexError].
  destruct (py_index (sorted_reverse tops) order_n) eqn:Ht; simpl;
    [discriminate|intros [= <-]; by eapply py_index_only_IndexError].
Qed.

Lemma calculate_Ok_edge_values (boxes : list pyseq) (selection : gset Z)
    (order_n : Z) (box : pyseq) :
  calculate_same_size_bounding_box boxes selection order_n = Ok box →
  ∃ lefts bottoms rights tops l b r t,
    edge_values boxes selection 0 = Ok lefts ∧
    edge_values boxes selection 1 = Ok bottoms ∧
    edge_values boxes selection 2 = Ok rights ∧
    edge_values boxes selection 3 = Ok tops ∧
    py_index (sorted lefts) order_n = Ok l ∧
    py_index (sorted bottoms) order_n = Ok b ∧
    py_index (sorted_reverse rights) order_n = Ok r ∧
    py_index (sorted_reverse tops) order_n = Ok t ∧
    box = PyList [l; b; r; t].
Proof.
  rewrite calculate_same_size_bounding_box_unfold. intros H.
  apply bind_Ok_inv in H as (lefts & ? & H).
  apply bind_Ok_inv in H as (bottoms & ? & H).
  apply bind_Ok_inv in H as (rights & ? & H).
  apply bind_Ok_inv in H as (tops & ? & H).
  apply bind_Ok_inv in H as (l & ? & H).
  apply bind_Ok_inv in H as (b & ? & H).
  apply bind_Ok_inv in H as (r & ? & H).
  apply bind_Ok_inv in H as (t & ? & H).
  injection H as <-. by exists lefts, bottoms, rights, tops, l, b, r, t.
Qed.

(** X4: the call raises [IndexError] as soon as the selection holds a page
    number outside [-len, len), or a selected page has a box of fewer than
    four entries, or [order_n] is outside [-n, n) for a selection of [n]
    pages; the last is always so for an empty selection. *)
Theorem calculate_same_size_bounding_box_raises (boxes : list pyseq)
    (selection : gset Z) (order_n : Z) :
  (∃ pg, pg ∈ selection ∧
         (pg < - Z.of_nat (length boxes) ∨ Z.of_nat (length boxes) ≤ pg ∨
          ∃ box, py_index boxes pg = Ok box ∧ (length (items box) < 4)%nat)) ∨
  order_n < - Z.of_nat (size selection) ∨ Z.of_nat (size selection) ≤ order_n →
  calculate_same_size_bounding_box boxes selection order_n = Raise IndexError.
Proof.
  intros Hbad.
  destruct (calculate_same_size_bounding_box boxes selection order_n) as [box|e] eqn:Hcalc;
    [|f_equal; by eapply calculate_only_IndexError].
  exfalso.
  apply calculate_Ok_edge_values in Hcalc
    as (lefts & bottoms & rights & tops & l & b & r & t
        & Hlefts & _ & _ & Htops & Hl & _).
  destruct Hbad as [(pg & Hpg & Hbad)|Hn].
  - destruct (edge_values_Ok_page _ _ _ _ pg Htops Hpg) as (box' & v & Hbox & Hv).
    destruct Hbad as [Hlow|[Hhigh|(box'' & Hbox'' & Hshort)]].
    + rewrite py_index_out_of_range in Hbox by lia. discriminate.
    + rewrite py_index_out_of_range in Hbox by lia. discriminate.
    + assert (box'' = box') as -> by congruence.
      unfold py_getitem in Hv. rewrite py_index_out_of_range in Hv by lia. discriminate.
  - apply edge_values_length in Hlefts.
    rewrite py_index_out_of_range in Hl by (rewrite length_sorted; lia). discriminate.
Qed.

Lemma calculate_same_size_bounding_box_raises_witness :
  calculate_same_size_bounding_box scenario_boxes {[0; 3]} 0 = Raise IndexError.
Proof.
  apply calculate_same_size_bounding_box_raises. left. exists 3.
  split; [by vm_compute|]. right. left. simpl. lia.
Defined.

(** X5: a negative [order_n] counts from the other end of the sorted
    lists: for a selection of [n] pages and [-n ≤ order_n < 0] the call
    does what it does for [n + order_n], whatever the boxes. *)
Theorem calculate_same_size_bounding_box_negative_order (boxes : list pyseq)
    (selection : gset Z) (order_n : Z) :
  - Z.of_nat (size selection) ≤ order_n < 0 →
  calculate_same_size_bounding_box boxes selection order_n
  = calculate_same_size_bounding_box boxes selection (Z.of_nat (size selection) + order_n).
Proof.
  intros Hn. rewrite !calculate_same_size_bounding_box_unfold.
  destruct (edge_values boxes selection 0) as [lefts|] eqn:Hlefts; [|done].
  destruct (edge_values boxes selection 1) as [bottoms|] eqn:Hbottoms; [|done].
  destruct (edge_values boxes selection 2) as [rights|] eqn:Hrights; [|done].
  destruct (edge_values boxes selection 3) as [tops|] eqn:Htops; [|done].
  apply edge_values_length in Hlefts, Hbottoms, Hrights, Htops.
  rewrite !bind_Ok.
  rewrite (py_index_negative (sorted lefts) order_n),
    (py_index_negative (sorted bottoms) order_n),
    (py_index_negative (sorted_reverse rights) order_n),
    (py_index_negative (sorted_reverse tops) order_n)
    by (rewrite ?length_sorted, ?length_sorted_reverse; lia).
  rewrite !length_sorted, !length_sorted_reverse.
  by rewrite Hlefts, Hbottoms, Hrights, Htops.
Qed.

Lemma calculate_same_size_bounding_box_negative_order_witness :
  calculate_same_size_bounding_box scenario_boxes scenario_selection (-1)
  = calculate_same_size_bounding_box scenario_boxes scenario_selection
      (Z.of_nat (size scenario_selection) + -1).
Proof.
  apply calculate_same_size_bounding_box_negative_order.
  split; [by vm_compute|lia].
Defined.

(** X6: for a selection of one page number that indexes the list, from
    the front or, when negative, from the end, [order_n = 0] returns that
    page's box as a list. *)
Theorem calculate_same_size_bounding_box_single_page (boxes : list pyseq)
    (pg : Z) (box : pyseq) :
  py_index boxes pg = Ok box → Box box →
  calculate_same_size_bounding_box boxes {[pg]} 0 = Ok (PyList (items box)).
Proof.
  intros Hbox Hfour. destruct (Box_inv _ Hfour) as (x0 & x1 & x2 & x3 & Hitems).
  unfold calculate_same_size_bounding_box, edge_values.
  rewrite elements_singleton. simpl result_map.
  rewrite Hbox, !bind_Ok. unfold py_getitem. rewrite Hitems. reflexivity.
Qed.

Lemma calculate_same_size_bounding_box_single_page_witness :
  calculate_same_size_bounding_box scenario_boxes {[-1]} 0 = Ok (PyList [5; 5; 105; 105]).
Proof.
  apply (calculate_same_size_bounding_box_single_page scenario_boxes (-1)
           (PyList [5; 5; 105; 105])); reflexivity.
Defined.

(** The extremes of the selected edges, for [order_n = 0]. *)
Lemma calculate_order_0_extremes (boxes : list pyseq) (selection : gset Z) :
  Forall Box boxes → selection ≠ ∅ →
  (∀ pg, pg ∈ selection → 0 ≤ pg < Z.of_nat (length boxes)) →
  ∃ l b r t,
    calculate_same_size_bounding_box boxes selection 0 = Ok (PyList [l; b; r; t]) ∧
    is_minimum (selected_edge boxes selection 0) l ∧
    is_minimum (selected_edge boxes selection 1) b ∧
    is_maximum (selected_edge boxes selection 2) r ∧
    is_maximum (selected_edge boxes selection 3) t.
Proof.
  intros Hboxes Hne Hvalid.
  destruct (selected_edge_values boxes selection Hboxes Hvalid)
    as (lefts & bottoms & rights & tops & Hl & Hb & Hr & Ht
        & (Hnl & Hnb & Hnr & Hnt) & Hinl & Hinb & Hinr & Hint).
  assert (size selection ≠ 0%nat) as Hsize.
  { intros Hzero. apply Hne, leibniz_equiv. by apply size_empty_iff. }
  destruct (sorted_lookup_exists (sorted lefts) lefts 0) as [l Hl0];
    [apply sorted_Permutation|lia|].
  destruct (sorted_lookup_exists (sorted bottoms) bottoms 0) as [b Hb0];
    [apply sorted_Permutation|lia|].
  destruct (sorted_lookup_exists (sorted_reverse rights) rights 0) as [r Hr0];
    [apply sorted_reverse_Permutation|lia|].
  destruct (sorted_lookup_exists (sorted_reverse tops) tops 0) as [t Ht0];
    [apply sorted_reverse_Permutation|lia|].
  exists l, b, r, t. split.
  { by apply (calculate_from_sorted boxes selection 0 lefts bottoms rights tops). }
  simpl in Hl0, Hb0, Hr0, Ht0.
  destruct (sorted_by_first Z.le _ lefts l (sorted_ascending lefts)
              (sorted_Permutation lefts) Hl0) as [Hl1 Hl2].
  destruct (sorted_by_first Z.le _ bottoms b (sorted_ascending bottoms)
              (sorted_Permutation bottoms) Hb0) as [Hb1 Hb2].
  destruct (sorted_by_first (flip Z.le) _ rights r (sorted_reverse_descending rights)
              (sorted_reverse_Permutation rights) Hr0) as [Hr1 Hr2].
  destruct (sorted_by_first (flip Z.le) _ tops t (sorted_reverse_descending tops)
              (sorted_reverse_Permutation tops) Ht0) as [Ht1 Ht2].
  unfold is_minimum, is_maximum.
  repeat split; try (by (apply Hinl || apply Hinb || apply Hinr || apply Hint)).
  - intros v Hv. by apply Hl2, Hinl.
  - intros v Hv. by apply Hb2, Hinb.
  - intros v Hv. by apply Hr2, Hinr.
  - intros v Hv. by apply Ht2, Hint.
Qed.

Lemma selected_edge_mono (boxes : list pyseq) (selection selection' : gset Z) (k v : Z) :
  selection ⊆ selection' → selected_edge boxes selection k v →
  selected_edge boxes selection' k v.
Proof. intros Hsub (pg & box & Hpg & H). exists pg, box. split; [by apply Hsub|done]. Qed.

(** X7: for [order_n = 0] the box grows with the selection: selecting more
    pages moves left and bottom down or nowhere, and right and top up or
    nowhere. *)
Theorem calculate_same_size_bounding_box_grows (boxes : list pyseq)
    (selection selection' : gset Z) :
  Forall Box boxes → selection ≠ ∅ → selection ⊆ selection' →
  (∀ pg, pg ∈ selection' → 0 ≤ pg < Z.of_nat (length boxes)) →
  ∃ l b r t l' b' r' t',
    calculate_same_size_bounding_box boxes selection 0 = Ok (PyList [l; b; r; t]) ∧
    calculate_same_size_bounding_box boxes selection' 0 = Ok (PyList [l'; b'; r'; t']) ∧
    l' ≤ l ∧ b' ≤ b ∧ r ≤ r' ∧ t ≤ t'.
Proof.
  intros Hboxes Hne Hsub Hvalid.
  destruct (calculate_order_0_extremes boxes selection)
    as (l & b & r & t & Hcalc & [Hl _] & [Hb _] & [Hr _] & [Ht _]);
    [done|done|by intros pg Hpg; apply Hvalid, Hsub|].
  destruct (calculate_order_0_extremes boxes selection')
    as (l' & b' & r' & t' & Hcalc' & [_ Hl'] & [_ Hb'] & [_ Hr'] & [_ Ht']);
    [done| |done|].
  { intros Hempty. apply set_choose_L in Hne as [pg Hpg].
    apply Hsub in Hpg. rewrite Hempty in Hpg. by apply not_elem_of_empty in Hpg. }
  exists l, b, r, t, l', b', r', t'. split; [done|]. split; [done|].
  repeat split.
  - by eapply Hl', selected_edge_mono.
  - by eapply Hb', selected_edge_mono.
  - by eapply Hr', selected_edge_mono.
  - by eapply Ht', selected_edge_mono.
Qed.

Lemma calculate_same_size_bounding_box_grows_witness :
  ∃ l b r t l' b' r' t',
    calculate_same_size_bounding_box scenario_boxes partial_selection 0
    = Ok (PyList [l; b; r; t]) ∧
    calculate_same_size_bounding_box scenario_boxes scenario_selection 0
    = Ok (PyList [l'; b'; r'; t']) ∧
    l' ≤ l ∧ b' ≤ b ∧ r ≤ r' ∧ t ≤ t'.
Proof.
  apply calculate_same_size_bounding_box_grows.
  - apply scenario_boxes_are_boxes.
  - apply partial_selection_well_formed.
  - intros pg Hpg. unfold partial_selection in Hpg.
    apply elem_of_union in Hpg as [Hpg|Hpg]; apply elem_of_singleton in Hpg;
      subst; by vm_compute.
  - apply scenario_selection_valid.
Defined.

(** ** handle_same_page_size_option: what the pages are set to *)

(** The call as the write to [args] and a computation on the values read. *)
Lemma handle_same_page_size_option_unfold (boxes : list pyseq) (selection : gset Z)
    (num_selected : Z) (args : Args) :
  handle_same_page_size_option boxes selection num_selected args
  = (after_order_stat args,
     if negb (same_size_requested args) then Ok boxes
     else
       box ← uniform_box boxes selection num_selected args;
       same_size_bounding_box_list ← same_size_list boxes args box;
       select_loop 0 boxes selection same_size_bounding_box_list []).
Proof.
  unfold handle_same_page_size_option, same_size_requested, uniform_box, same_size_list,
    after_order_stat, order_statistic.
  generalize (result_map py_float). intros to_floats.
  destruct args as [v same stat fixed mask pr pr4 ao ao4 uo uo4]. simpl.
  unfold mbind, prog_bind, attr, assign, pure_call, mret, prog_ret. simpl.
  destruct stat as [[|first rest]|]; simpl;
    destruct same; simpl;
    repeat match goal with
      | |- context [calculate_same_size_bounding_box ?b ?s ?n] =>
          destruct (calculate_same_size_bounding_box b s n); simpl
      end;
    try (destruct fixed as [[|x fixed]|]; simpl;
         [|destruct (to_floats (x :: fixed)) as [floats|e]; simpl|]);
    try (destruct mask as [[|char mask]|]; simpl);
    repeat match goal with
      | |- context [combine_tuple_lists_with_mask ?m ?d ?o] =>
          destruct (combine_tuple_lists_with_mask m d o); simpl
      end;
    reflexivity.
Qed.

Lemma select_loop_pointwise (selection : gset Z) (ssl : list pyseq) (boxes : list pyseq) :
  ∀ (p_num : nat) (acc r : list pyseq),
    select_loop p_num boxes selection ssl acc = Ok r →
    ∃ r', r = acc ++ r' ∧ length r' = length boxes ∧
          ∀ i, (i < length boxes)%nat →
               r' !! i = if bool_decide (Z.of_nat (p_num + i) ∈ selection)
                         then ssl !! (p_num + i)%nat else boxes !! i.
Proof.
  induction boxes as [|f_box boxes IH]; intros p_num acc r Hr; simpl in Hr.
  - injection Hr as <-. exists []. rewrite app_nil_r. repeat split. simpl. lia.
  - case_bool_decide as Hsel.
    + apply IH in Hr as (r' & -> & Hlen & Hpoint).
      exists (f_box :: r'). rewrite <-app_assoc. split; [done|].
      split; [simpl; lia|]. intros [|i] Hi.
      * rewrite Nat.add_0_r. by rewrite bool_decide_eq_false_2.
      * simpl. replace (p_num + S i)%nat with (S p_num + i)%nat by lia.
        apply Hpoint. simpl in Hi. lia.
    + apply bind_Ok_inv in Hr as (box & Hbox & Hr).
      apply py_index_Ok in Hbox; [|lia]. rewrite Nat2Z.id in Hbox.
      apply IH in Hr as (r' & -> & Hlen & Hpoint).
      exists (box :: r'). rewrite <-app_assoc. split; [done|].
      split; [simpl; lia|]. intros [|i] Hi.
      * rewrite Nat.add_0_r. rewrite bool_decide_eq_true_2; [done|].
        by destruct (decide (Z.of_nat p_num ∈ selection)).
      * simpl. replace (p_num + S i)%nat with (S p_num + i)%nat by lia.
        apply Hpoint. simpl in Hi. lia.
Qed.

(** X8: when neither an order statistic, nor a common size, nor a fixed
    size is requested, the call returns the list it was given and leaves
    [args] as it was, whatever the boxes, the selection and the count. *)
Theorem handle_same_page_size_option_not_requested (boxes : list pyseq)
    (selection : gset Z) (num_selected : Z) (args : Args) :
  truthy_list (samePageSizeOrderStat args) = false →
  samePageSize args = false →
  truthy_list (setSamePageSize args) = false →
  handle_same_page_size_option boxes selection num_selected args = (args, Ok boxes).
Proof.
  intros Hstat Hsame Hfixed. rewrite handle_same_page_size_option_unfold.
  unfold same_size_requested, after_order_stat. by rewrite Hstat, Hsame, Hfixed.
Qed.

Lemma handle_same_page_size_option_not_requested_witness :
  handle_same_page_size_option scenario_boxes {[7]} 0
    (mkArgs true false (Some []) (Some []) (Some "tt"%string) [] None [] None None None)
  = (mkArgs true false (Some []) (Some []) (Some "tt"%string) [] None [] None None None,
     Ok scenario_boxes).
Proof. apply handle_same_page_size_option_not_requested; reflexivity. Defined.

Lemma order_statistic_range (args : Args) (num_selected : Z) :
  0 < num_selected → 0 ≤ order_statistic args num_selected < num_selected.
Proof.
  intros Hpos. unfold order_statistic.
  destruct (samePageSizeOrderStat args) as [[|first rest]|]; lia.
Qed.

Lemma uniform_box_is_box (boxes : list pyseq) (selection : gset Z) (num_selected : Z)
    (args : Args) (uniform : pyseq) :
  (∀ box, setSamePageSize args = Some box → length box = 4%nat) →
  uniform_box boxes selection num_selected args = Ok uniform →
  ∃ xs, uniform = PyList xs ∧ length xs = 4%nat.
Proof.
  intros Hfixed. unfold uniform_box. destruct (samePageSize (after_order_stat args)).
  - intros Hcalc. apply calculate_Ok_edge_values in Hcalc
      as (_ & _ & _ & _ & l & b & r & t & _ & _ & _ & _ & _ & _ & _ & _ & ->).
    by exists [l; b; r; t].
  - destruct (setSamePageSize args) as [box|]; [|discriminate]. simpl.
    intros Hfloats. apply bind_Ok_inv in Hfloats as (floats & Hfloats & [= <-]).
    exists floats. split; [done|].
    rewrite (result_map_length _ _ _ Hfloats). by apply Hfixed.
Qed.

(** The uniform box exists within the contract, when [float] accepts the
    fixed size. *)
Lemma uniform_box_returns (boxes : list pyseq) (selection : gset Z)
    (num_selected : Z) (args : Args) :
  well_formed_call boxes selection num_selected args →
  fixed_size_converts args →
  same_size_requested args = true →
  ∃ uniform, uniform_box boxes selection num_selected args = Ok uniform.
Proof.
  intros (Hboxes & Hne & Hvalid & -> & Hmask & Hfixed) Hconverts Hreq.
  assert (size selection ≠ 0%nat) as Hsize.
  { intros Hzero. apply Hne, leibniz_equiv. by apply size_empty_iff. }
  unfold uniform_box, fixed_size_converts, same_size_requested in *.
  destruct (samePageSize (after_order_stat args)).
  - destruct (calculate_same_size_bounding_box_returns boxes selection
                (order_statistic args (Z.of_nat (size selection))))
      as (l & b & r & t & Hcalc); [done|done|apply order_statistic_range; lia|].
    by exists (PyList [l; b; r; t]).
  - simpl in Hreq. destruct (setSamePageSize args) as [[|x l]|] eqn:Hset; try done.
    destruct (Hconverts eq_refl (x :: l) eq_refl) as [floats Hfloats].
    exists (PyList floats). simpl as_list. by rewrite bind_Ok, Hfloats.
Qed.

(** The pages of the returned list, within the contract, given the uniform
    box. *)
Lemma handle_pages (boxes : list pyseq) (selection : gset Z)
    (num_selected : Z) (args : Args) (uniform : pyseq) :
  well_formed_call boxes selection num_selected args →
  same_size_requested args = true →
  uniform_box boxes selection num_selected args = Ok uniform →
  ∃ r,
    handle_same_page_size_option boxes selection num_selected args
    = (after_order_stat args, Ok r) ∧
    length r = length boxes ∧
    ∀ (p : nat) (own : pyseq), boxes !! p = Some own →
      r !! p = Some (if bool_decide (Z.of_nat p ∈ selection)
                     then page_box (samePageSize4 args) own uniform else own).
Proof.
  intros (Hboxes & Hne & Hvalid & -> & Hmask & Hfixed) Hreq Huniform.
  rewrite handle_same_page_size_option_unfold, Hreq. simpl negb. cbv iota.
  assert (Box uniform) as Hbox.
  { destruct (uniform_box_is_box _ _ _ _ _ Hfixed Huniform) as (xs & -> & Hxs). done. }
  assert (∃ ssl, same_size_list boxes args uniform = Ok ssl ∧ length ssl = length boxes ∧
                 ∀ p own, boxes !! p = Some own →
                          ssl !! p = Some (page_box (samePageSize4 args) own uniform))
    as (ssl & Hssl & Hlen & Hlookup).
  { unfold same_size_list, page_box.
    destruct (samePageSize4 args) as [[|char mask]|] eqn:Hmask4; simpl.
    - exists (replicate (length boxes) uniform). split; [done|].
      split; [apply length_replicate|]. intros p own Hown.
      apply lookup_replicate_2. by eapply lookup_lt_Some.
    - exists (combine_with_mask (String char mask) boxes (replicate (length boxes) uniform)).
      split; [|split].
      + apply combine_tuple_lists_with_mask_refines.
        * eapply Forall_impl; [exact Hboxes|]. intros b. apply Box_fits. by apply Hmask.
        * apply Forall_replicate. apply Box_fits; [by apply Hmask|done].
      + rewrite combine_with_mask_length, length_replicate. lia.
      + intros p own Hown.
        apply (combine_with_mask_lookup (String char mask) boxes _ p own uniform); [done|].
        apply lookup_replicate_2. by eapply lookup_lt_Some.
    - exists (replicate (length boxes) uniform). split; [done|].
      split; [apply length_replicate|]. intros p own Hown.
      apply lookup_replicate_2. by eapply lookup_lt_Some. }
  rewrite Huniform, bind_Ok, Hssl, bind_Ok.
  destruct (select_loop_returns selection ssl boxes 0 []) as [r Hr]; [lia|].
  exists r. rewrite Hr. split; [done|].
  apply select_loop_pointwise in Hr as (r' & -> & Hlen' & Hpoint). simpl.
  split; [done|]. intros p own Hown.
  rewrite Hpoint by (by eapply lookup_lt_Some). simpl.
  case_bool_decide; [by apply Hlookup|done].
Qed.

(** X9: within its contract, with a common or a fixed size requested and
    a fixed size that [float] accepts, the call returns a list in which
    every page outside the selection has its own box and every selected
    page has the uniform box (the bounding box at the clamped order
    statistic, or else the box passed in with each entry converted by
    [float]), or, with a mask, its own box with the masked edges taken from
    the uniform box. *)
Theorem handle_same_page_size_option_pages (boxes : list pyseq) (selection : gset Z)
    (num_selected : Z) (args : Args) :
  well_formed_call boxes selection num_selected args →
  fixed_size_converts args →
  same_size_requested args = true →
  ∃ uniform r,
    uniform_box boxes selection num_selected args = Ok uniform ∧
    handle_same_page_size_option boxes selection num_selected args
    = (after_order_stat args, Ok r) ∧
    length r = length boxes ∧
    ∀ (p : nat) (own : pyseq), boxes !! p = Some own →
      r !! p = Some (if bool_decide (Z.of_nat p ∈ selection)
                     then page_box (samePageSize4 args) own uniform else own).
Proof.
  intros Hwf Hconverts Hreq.
  destruct (uniform_box_returns _ _ _ _ Hwf Hconverts Hreq) as [uniform Huniform].
  destruct (handle_pages _ _ _ _ _ Hwf Hreq Huniform) as (r & Hr).
  by exists uniform, r.
Qed.

Lemma handle_same_page_size_option_pages_witness :
  ∃ uniform r,
    uniform_box scenario_boxes partial_selection 2
      (mkArgs false false None (Some [0; 0; 2 ^ 53 + 1; 792]) (Some "fftf"%string)
         [10] None [0] None None None)
    = Ok uniform ∧
    handle_same_page_size_option scenario_boxes partial_selection 2
      (mkArgs false false None (Some [0; 0; 2 ^ 53 + 1; 792]) (Some "fftf"%string)
         [10] None [0] None None None)
    = (after_order_stat
         (mkArgs false false None (Some [0; 0; 2 ^ 53 + 1; 792]) (Some "fftf"%string)
            [10] None [0] None None None), Ok r) ∧
    length r = length scenario_boxes ∧
    ∀ (p : nat) (own : pyseq), scenario_boxes !! p = Some own →
      r !! p = Some (if bool_decide (Z.of_nat p ∈ partial_selection)
                     then page_box (Some "fftf"%string) own uniform else own).
Proof.
  apply (handle_same_page_size_option_pages scenario_boxes partial_selection 2
           (mkArgs false false None (Some [0; 0; 2 ^ 53 + 1; 792]) (Some "fftf"%string)
              [10] None [0] None None None)).
  - destruct partial_selection_well_formed as (Hboxes & Hne & Hvalid & Hnum & _ & _).
    split; [exact Hboxes|split; [exact Hne|split; [exact Hvalid|split; [exact Hnum|split]]]].
    + intros mask [= <-]. reflexivity.
    + intros box [= <-]. reflexivity.
  - intros _ box [= <-]. eexists. by vm_compute.
  - reflexivity.
Defined.

(** X10: with only a fixed size requested (no order statistic, no common
    size, no mask), whatever the boxes, the selection and the count: the
    call raises exactly when [float] of an entry of the box does, and then
    [OverflowError]; otherwise every page whose number is in the selection
    gets the list of the converted entries, which is the box passed in
    when no entry exceeds [2 ** 53] in magnitude, and every other page
    keeps its own. *)
Theorem handle_same_page_size_option_fixed_size (boxes : list pyseq)
    (selection : gset Z) (num_selected : Z) (args : Args) (x : Z) (fixed : list Z) :
  truthy_list (samePageSizeOrderStat args) = false →
  samePageSize args = false →
  setSamePageSize args = Some (x :: fixed) →
  truthy_str (samePageSize4 args) = false →
  match result_map py_float (x :: fixed) with
  | Ok floats =>
      ∃ r,
        handle_same_page_size_option boxes selection num_selected args = (args, Ok r) ∧
        length r = length boxes ∧
        ∀ (p : nat) (own : pyseq), boxes !! p = Some own →
          r !! p = Some (if bool_decide (Z.of_nat p ∈ selection)
                         then PyList floats else own)
  | Raise e =>
      e = OverflowError ∧
      handle_same_page_size_option boxes selection num_selected args
      = (args, Raise OverflowError)
  end ∧
  (Forall small_int (x :: fixed) → result_map py_float (x :: fixed) = Ok (x :: fixed)).
Proof.
  intros Hstat Hsame Hfixed Hmask. split.
  2:{ intros Hsmall. apply result_map_id.
      eapply Forall_impl; [exact Hsmall|]. apply py_float_small_int. }
  rewrite handle_same_page_size_option_unfold.
  unfold same_size_requested, uniform_box, same_size_list, after_order_stat.
  rewrite Hstat, Hsame, Hfixed, Hmask. simpl negb. simpl as_list. cbv iota.
  rewrite bind_Ok.
  destruct (result_map py_float (x :: fixed)) as [floats|e] eqn:Hfloats.
  2:{ apply float_list_only_OverflowError in Hfloats as ->. done. }
  rewrite !bind_Ok.
  destruct (select_loop_returns selection
              (replicate (length boxes) (PyList floats)) boxes 0 []) as [r Hr];
    [rewrite length_replicate; lia|].
  exists r. rewrite Hr. split; [done|].
  apply select_loop_pointwise in Hr as (r' & -> & Hlen' & Hpoint). simpl.
  split; [done|]. intros p own Hown.
  rewrite Hpoint by (by eapply lookup_lt_Some). simpl.
  case_bool_decide; [|done]. apply lookup_replicate_2. by eapply lookup_lt_Some.
Qed.

Lemma handle_same_page_size_option_fixed_size_witness :
  (∃ r,
     handle_same_page_size_option [PyList [1]; PyTuple []] {[1; 9]} 5
       (mkArgs false false None (Some [0; 0; 2 ^ 53 + 1; 2 ^ 53 + 3]) None
          [] None [] None None None)
     = (mkArgs false false None (Some [0; 0; 2 ^ 53 + 1; 2 ^ 53 + 3]) None
          [] None [] None None None, Ok r) ∧
     length r = length [PyList [1]; PyTuple []] ∧
     ∀ (p : nat) (own : pyseq), [PyList [1]; PyTuple []] !! p = Some own →
       r !! p = Some (if bool_decide (Z.of_nat p ∈ ({[1; 9]} : gset Z))
                      then PyList [0; 0; 2 ^ 53; 2 ^ 53 + 4] else own)) ∧
  handle_same_page_size_option [PyList [1]; PyTuple []] {[1; 9]} 5
    (mkArgs false false None (Some [0; 2 ^ 1024]) None [] None [] None None None)
  = (mkArgs false false None (Some [0; 2 ^ 1024]) None [] None [] None None None,
     Raise OverflowError).
Proof.
  split.
  - exact (proj1 (handle_same_page_size_option_fixed_size
                    [PyList [1]; PyTuple []] {[1; 9]} 5
                    (mkArgs false false None (Some [0; 0; 2 ^ 53 + 1; 2 ^ 53 + 3]) None
                       [] None [] None None None)
                    0 [0; 2 ^ 53 + 1; 2 ^ 53 + 3] eq_refl eq_refl eq_refl eq_refl)).
  - exact (proj2 (proj1 (handle_same_page_size_option_fixed_size
                    [PyList [1]; PyTuple []] {[1; 9]} 5
                    (mkArgs false false None (Some [0; 2 ^ 1024]) None
                       [] None [] None None None)
                    0 [2 ^ 1024] eq_refl eq_refl eq_refl eq_refl))).
Defined.

(** X11: a common size takes precedence over a fixed size: when
    [--samePageSize] is set, or an order statistic is given, the returned
    list does not depend on [--setSamePageSize]. *)
Theorem handle_same_page_size_option_common_size_wins (boxes : list pyseq)
    (selection : gset Z) (num_selected : Z) (args : Args) (fixed : option (list Z)) :
  samePageSize (after_order_stat args) = true →
  (handle_same_page_size_option boxes selection num_selected
     (set_setSamePageSize fixed args)).2
  = (handle_same_page_size_option boxes selection num_selected args).2.
Proof.
  intros Hsame. rewrite !handle_same_page_size_option_unfold.
  destruct args as [v same stat fixed' mask pr pr4 ao ao4 uo uo4].
  unfold same_size_requested, uniform_box, same_size_list, after_order_stat,
    order_statistic, set_setSamePageSize in *. simpl in *.
  destruct (truthy_list stat); simpl in *; by subst.
Qed.

Lemma handle_same_page_size_option_common_size_wins_witness :
  (handle_same_page_size_option scenario_boxes scenario_selection 3
     (set_setSamePageSize (Some [0; 0; 612; 792]) same_size_args)).2
  = (handle_same_page_size_option scenario_boxes scenario_selection 3 same_size_args).2.
Proof. apply handle_same_page_size_option_common_size_wins. reflexivity. Defined.

(** X12: the order statistic is clamped: a count of 0 or less gives the
    list that [--samePageSize] alone gives, and a count of
    [num_pages_to_crop - 1] or more gives the list that
    [num_pages_to_crop - 1] gives. *)
Theorem handle_same_page_size_option_order_stat_clamped (boxes : list pyseq)
    (selection : gset Z) (num_selected : Z) (args : Args) (count : Z) (rest : list Z) :
  (count ≤ 0 →
   (handle_same_page_size_option boxes selection num_selected
      (set_samePageSizeOrderStat (Some (count :: rest)) args)).2
   = (handle_same_page_size_option boxes selection num_selected
        (set_samePageSize true (set_samePageSizeOrderStat None args))).2) ∧
  (num_selected - 1 ≤ count →
   (handle_same_page_size_option boxes selection num_selected
      (set_samePageSizeOrderStat (Some (count :: rest)) args)).2
   = (handle_same_page_size_option boxes selection num_selected
        (set_samePageSizeOrderStat (Some [num_selected - 1]) args)).2).
Proof.
  rewrite !handle_same_page_size_option_unfold.
  destruct args as [v same stat fixed mask pr pr4 ao ao4 uo uo4].
  unfold same_size_requested, uniform_box, same_size_list, after_order_stat,
    order_statistic, set_samePageSizeOrderStat, set_samePageSize.
  cbn -[Z.max Z.min Z.sub].
  split; intros Hcount.
  - replace (Z.max (Z.min count (num_selected - 1)) 0) with 0 by lia. done.
  - replace (Z.min count (num_selected - 1)) with (num_selected - 1) by lia.
    replace (Z.min (num_selected - 1) (num_selected - 1)) with (num_selected - 1) by lia.
    done.
Qed.

Lemma handle_same_page_size_option_order_stat_clamped_witness :
  (handle_same_page_size_option scenario_boxes scenario_selection 3
     (set_samePageSizeOrderStat (Some [-4]) same_size_args)).2
  = (handle_same_page_size_option scenario_boxes scenario_selection 3
       (set_samePageSize true (set_samePageSizeOrderStat None same_size_args))).2 ∧
  (handle_same_page_size_option scenario_boxes scenario_selection 3
     (set_samePageSizeOrderStat (Some [100]) same_size_args)).2
  = (handle_same_page_size_option scenario_boxes scenario_selection 3
       (set_samePageSizeOrderStat (Some [3 - 1]) same_size_args)).2.
Proof.
  split.
  - apply (proj1 (handle_same_page_size_option_order_stat_clamped
                    scenario_boxes scenario_selection 3 same_size_args (-4) [])). lia.
  - apply (proj2 (handle_same_page_size_option_order_stat_clamped
                    scenario_boxes scenario_selection 3 same_size_args 100 [])). lia.
Defined.

(** ** The edges of the bounding box, and applying the policy twice *)

(** The edges of the returned box are edges of selected pages. *)
Lemma calculate_edges_selected (boxes : list pyseq)
    (selection : gset Z) (order_n : Z) :
  Forall Box boxes →
  (∀ pg, pg ∈ selection → 0 ≤ pg < Z.of_nat (length boxes)) →
  0 ≤ order_n < Z.of_nat (size selection) →
  ∃ l b r t,
    calculate_same_size_bounding_box boxes selection order_n = Ok (PyList [l; b; r; t]) ∧
    selected_edge boxes selection 0 l ∧ selected_edge boxes selection 1 b ∧
    selected_edge boxes selection 2 r ∧ selected_edge boxes selection 3 t.
Proof.
  intros Hboxes Hvalid Hn.
  destruct (selected_edge_values boxes selection Hboxes Hvalid)
    as (lefts & bottoms & rights & tops & Hl & Hb & Hr & Ht
        & (Hnl & Hnb & Hnr & Hnt) & Hinl & Hinb & Hinr & Hint).
  destruct (sorted_lookup_exists (sorted lefts) lefts order_n) as [l Hl0];
    [apply sorted_Permutation|lia|].
  destruct (sorted_lookup_exists (sorted bottoms) bottoms order_n) as [b Hb0];
    [apply sorted_Permutation|lia|].
  destruct (sorted_lookup_exists (sorted_reverse rights) rights order_n) as [r Hr0];
    [apply sorted_reverse_Permutation|lia|].
  destruct (sorted_lookup_exists (sorted_reverse tops) tops order_n) as [t Ht0];
    [apply sorted_reverse_Permutation|lia|].
  exists l, b, r, t. split.
  { apply (calculate_from_sorted boxes selection order_n lefts bottoms rights tops);
      (done || lia). }
  repeat split.
  - apply Hinl. rewrite <-(sorted_Permutation lefts). by eapply list_elem_of_lookup_2.
  - apply Hinb. rewrite <-(sorted_Permutation bottoms). by eapply list_elem_of_lookup_2.
  - apply Hinr. rewrite <-(sorted_reverse_Permutation rights).
    by eapply list_elem_of_lookup_2.
  - apply Hint. rewrite <-(sorted_reverse_Permutation tops).
    by eapply list_elem_of_lookup_2.
Qed.

(** X13: within the contract and for every order statistic in range, each
    edge of the returned box is that edge of one of the selected pages. *)
Theorem calculate_same_size_bounding_box_edges (boxes : list pyseq)
    (selection : gset Z) (order_n : Z) :
  Forall Box boxes →
  (∀ pg, pg ∈ selection → 0 ≤ pg < Z.of_nat (length boxes)) →
  0 ≤ order_n < Z.of_nat (size selection) →
  ∃ l b r t,
    calculate_same_size_bounding_box boxes selection order_n = Ok (PyList [l; b; r; t]) ∧
    selected_edge boxes selection 0 l ∧ selected_edge boxes selection 1 b ∧
    selected_edge boxes selection 2 r ∧ selected_edge boxes selection 3 t.
Proof. apply calculate_edges_selected. Qed.

Lemma calculate_same_size_bounding_box_edges_witness :
  ∃ l b r t,
    calculate_same_size_bounding_box scenario_boxes scenario_selection 1
    = Ok (PyList [l; b; r; t]) ∧
    selected_edge scenario_boxes scenario_selection 0 l ∧
    selected_edge scenario_boxes scenario_selection 1 b ∧
    selected_edge scenario_boxes scenario_selection 2 r ∧
    selected_edge scenario_boxes scenario_selection 3 t.
Proof.
  apply calculate_same_size_bounding_box_edges.
  - apply scenario_boxes_are_boxes.
  - apply scenario_selection_valid.
  - split; [lia|by vm_compute].
Defined.

Lemma masked_box_lookup (mask : string) :
  ∀ (d o : list Z) (i : nat),
    length d = length o →
    masked_box mask d o !! i
    = if bool_decide (String.get i mask = Some "t"%char) then o !! i else d !! i.
Proof.
  induction mask as [|char mask IH]; intros d o i Hlen.
  - by rewrite masked_box_empty_mask.
  - destruct d as [|x d], o as [|y o]; try done.
    + simpl. by case_bool_decide.
    + cbn [masked_box]. destruct i as [|i]; simpl.
      * destruct (Ascii.eqb_spec char "t") as [->|Hne].
        -- by rewrite bool_decide_eq_true_2.
        -- rewrite bool_decide_eq_false_2; [done|]. by intros [= ?].
      * apply IH. simpl in Hlen. lia.
Qed.

Lemma after_order_stat_fields (args : Args) :
  samePageSizeOrderStat (after_order_stat args) = samePageSizeOrderStat args ∧
  setSamePageSize (after_order_stat args) = setSamePageSize args ∧
  samePageSize4 (after_order_stat args) = samePageSize4 args ∧
  after_order_stat (after_order_stat args) = after_order_stat args ∧
  same_size_requested (after_order_stat args) = same_size_requested args.
Proof.
  unfold same_size_requested, after_order_stat.
  destruct args as [v same stat fixed mask pr pr4 ao ao4 uo uo4]. simpl.
  destruct (truthy_list stat) eqn:Hstat; simpl; rewrite ?Hstat; done.
Qed.

(** On the returned list the policy finds the same uniform box, as far as
    the mask uses it. *)
Lemma uniform_box_again (boxes r : list pyseq) (selection : gset Z) (num_selected : Z)
    (args : Args) (uniform : pyseq) :
  well_formed_call boxes selection num_selected args →
  uniform_box boxes selection num_selected args = Ok uniform →
  length r = length boxes → Forall Box r →
  (∀ (p : nat) (own : pyseq), boxes !! p = Some own →
     r !! p = Some (if bool_decide (Z.of_nat p ∈ selection)
                    then page_box (samePageSize4 args) own uniform else own)) →
  ∃ xs2,
    uniform_box r selection num_selected (after_order_stat args) = Ok (PyList xs2) ∧
    length xs2 = 4%nat ∧
    ∀ j : nat,
      match samePageSize4 args with
      | Some (String char mask) => String.get j (String char mask) = Some "t"%char
      | _ => True
      end → (j < 4)%nat → xs2 !! j = items uniform !! j.
Proof.
  intros (Hboxes & Hne & Hvalid & -> & Hmask & Hfixed) Huniform Hlen Hr Hpages.
  assert (size selection ≠ 0%nat) as Hsize.
  { intros Hzero. apply Hne, leibniz_equiv. by apply size_empty_iff. }
  destruct (uniform_box_is_box _ _ _ _ _ Hfixed Huniform) as (xs & -> & Hxs).
  destruct (after_order_stat_fields args) as (Hstat' & Hfixed' & _ & Hafter & _).
  unfold uniform_box in *. rewrite Hafter, Hfixed'.
  assert (order_statistic (after_order_stat args) (Z.of_nat (size selection))
          = order_statistic args (Z.of_nat (size selection))) as ->
    by (unfold order_statistic; by rewrite Hstat').
  destruct (samePageSize (after_order_stat args)); [|by exists xs].
  destruct (calculate_edges_selected r selection
              (order_statistic args (Z.of_nat (size selection))))
    as (l & b & rr & t & Hcalc & Hl & Hb & Hrr & Ht);
    [done|by rewrite Hlen|apply order_statistic_range; lia|].
  exists [l; b; rr; t]. split; [done|]. split; [done|].
  assert (∀ (j : nat) (e : Z),
            selected_edge r selection (Z.of_nat j) e →
            match samePageSize4 args with
            | Some (String char mask) => String.get j (String char mask) = Some "t"%char
            | _ => True
            end → Some e = xs !! j) as Hedge.
  { intros j e (pg & box & Hpg & Hbox & He) Hcond. rewrite Nat2Z.id in He.
    pose proof (Hvalid pg Hpg) as Hrange.
    destruct (lookup_lt_is_Some_2 boxes (Z.to_nat pg)) as [own Hown]; [lia|].
    assert (Box own) as Hownbox by exact (Forall_lookup_1 _ _ _ _ Hboxes Hown).
    rewrite (Hpages _ _ Hown), Z2Nat.id, bool_decide_eq_true_2 in Hbox by (done || lia).
    injection Hbox as <-. unfold page_box in He.
    destruct (samePageSize4 args) as [[|char mask]|]; cbn [items] in He; try congruence.
    rewrite masked_box_lookup in He by (unfold Box in Hownbox; simpl; lia).
    rewrite bool_decide_eq_true_2 in He by done. congruence. }
  intros j Hcond Hj.
  destruct j as [|[|[|[|j]]]]; [| | | |lia]; simpl.
  - by apply (Hedge 0%nat).
  - by apply (Hedge 1%nat).
  - by apply (Hedge 2%nat).
  - by apply (Hedge 3%nat).
Qed.

(** X14: applying the policy to the list it returned, with the [args] it
    left, returns that list again: within the contract the policy is
    idempotent, with or without a mask and for every order statistic. *)
Theorem handle_same_page_size_option_idempotent (boxes r : list pyseq)
    (selection : gset Z) (num_selected : Z) (args args1 : Args) :
  well_formed_call boxes selection num_selected args →
  handle_same_page_size_option boxes selection num_selected args = (args1, Ok r) →
  handle_same_page_size_option r selection num_selected args1 = (args1, Ok r).
Proof.
  intros Hwf Hfirst.
  destruct (after_order_stat_fields args) as (Hstat' & Hfixed' & Hmask' & Hafter & Hreq').
  destruct (same_size_requested args) eqn:Hreq.
  2:{ rewrite handle_same_page_size_option_unfold, Hreq in Hfirst. simpl in Hfirst.
      injection Hfirst as <- <-.
      by rewrite handle_same_page_size_option_unfold, Hreq', Hafter. }
  assert (∃ uniform, uniform_box boxes selection num_selected args = Ok uniform)
    as [uniform Huniform].
  { rewrite handle_same_page_size_option_unfold, Hreq in Hfirst.
    simpl negb in Hfirst. cbv iota in Hfirst.
    destruct (uniform_box boxes selection num_selected args) as [uniform|e];
      [by exists uniform|discriminate Hfirst]. }
  destruct (handle_pages boxes selection num_selected args uniform Hwf Hreq Huniform)
    as (r0 & Hcall & Hlen & Hpages).
  rewrite Hcall in Hfirst. injection Hfirst as <- <-.
  pose proof Hwf as (Hboxes & Hne & Hvalid & Hnum & Hmask & Hfixed).
  destruct (uniform_box_is_box _ _ _ _ _ Hfixed Huniform) as (xs & -> & Hxs).
  assert (Forall Box r0) as Hr0.
  { apply Forall_lookup. intros p rp Hrp.
    destruct (lookup_lt_is_Some_2 boxes p) as [own Hown];
      [rewrite <-Hlen; by eapply lookup_lt_Some|].
    assert (Box own) as Hownbox by exact (Forall_lookup_1 _ _ _ _ Hboxes Hown).
    rewrite (Hpages _ _ Hown) in Hrp. injection Hrp as <-.
    case_bool_decide; [|done]. unfold page_box.
    destruct (samePageSize4 args) as [[|char mask]|]; try done.
    unfold Box. cbn [items]. by rewrite masked_box_length. }
  assert (well_formed_call r0 selection num_selected (after_order_stat args)) as Hwf2.
  { unfold well_formed_call. rewrite Hlen, Hmask', Hfixed'. done. }
  destruct (uniform_box_again boxes r0 selection num_selected args (PyList xs))
    as (xs2 & Huniform2 & Hxs2 & Hagree); [done..|].
  destruct (handle_pages r0 selection num_selected (after_order_stat args) (PyList xs2)
              Hwf2) as (r2 & Hcall2 & Hlen2 & Hpages2); [by rewrite Hreq'|done|].
  rewrite Hafter, Hmask' in *. rewrite Hcall2. do 2 f_equal.
  apply list_eq. intros p.
  destruct (r0 !! p) as [rp|] eqn:Hrp;
    [|apply lookup_ge_None; rewrite Hlen2; by apply lookup_ge_None].
  rewrite (Hpages2 _ _ Hrp). f_equal. case_bool_decide as Hsel; [|done].
  destruct (lookup_lt_is_Some_2 boxes p) as [own Hown];
    [rewrite <-Hlen; by eapply lookup_lt_Some|].
  assert (Box own) as Hownbox by exact (Forall_lookup_1 _ _ _ _ Hboxes Hown).
  rewrite (Hpages _ _ Hown), bool_decide_eq_true_2 in Hrp by done.
  injection Hrp as <-. unfold page_box in *.
  assert (∀ ys, length ys = 4%nat → (∀ j, (j < 4)%nat → xs2 !! j = ys !! j) → xs2 = ys)
    as Hsame.
  { intros ys Hys Hall. apply list_eq. intros j.
    destruct (decide (j < 4)%nat); [by apply Hall|].
    rewrite !lookup_ge_None_2 by lia. done. }
  destruct (samePageSize4 args) as [[|char mask]|].
  - f_equal. apply Hsame; [done|]. intros j Hj. by apply Hagree.
  - f_equal. cbn [items] in *. apply list_eq. intros j.
    unfold Box in Hownbox.
    rewrite !masked_box_lookup by (rewrite ?masked_box_length; lia).
    case_bool_decide as Ht; [|done].
    destruct (decide (j < 4)%nat); [by apply Hagree|].
    rewrite !lookup_ge_None_2 by lia. done.
  - f_equal. apply Hsame; [done|]. intros j Hj. by apply Hagree.
Qed.

Lemma handle_same_page_size_option_idempotent_witness :
  handle_same_page_size_option
    [PyTuple [0; 0; 100; 105]; PyList [10; 10; 110; 110]; PyTuple [0; 5; 105; 105]]
    partial_selection 2 same_size_args
  = (same_size_args,
     Ok [PyTuple [0; 0; 100; 105]; PyList [10; 10; 110; 110]; PyTuple [0; 5; 105; 105]]).
Proof.
  apply (handle_same_page_size_option_idempotent scenario_boxes _ partial_selection 2
           same_size_args same_size_args).
  - apply partial_selection_well_formed.
  - by vm_compute.
Defined.

(** ** validate_crop_arguments *)

(** The call as a computation on the values read; [args] is not written. *)
Lemma validate_crop_arguments_unfold (args : Args) :
  validate_crop_arguments args
  = (args,
     percent_retain_4 ← per_edge (percentRetain4 args) (percentRetain args);
     absolute_offset_4 ← per_edge (absoluteOffset4 args) (absoluteOffset args);
     uniform_order_stat_4 ←
       (if negb (truthy_list (uniformOrderStat4 args)) then
          if truthy_list (uniformOrderStat args) then
            l ← as_list (uniformOrderStat args); first ← py_index l 0;
            Ok (replicate 4 first)
          else Ok (replicate 4 0)
        else as_list (uniformOrderStat4 args));
     Ok (<["percent_retain_4" := percent_retain_4]>
         (<["absolute_offset_4" := absolute_offset_4]>
          (<["uniform_order_stat_4" := uniform_order_stat_4]> ∅)))).
Proof.
  unfold validate_crop_arguments, mbind at 1 2 3 4 5 6 7 8 9, prog_bind, attr, pure_call.
  destruct (per_edge (percentRetain4 args) (percentRetain args)); [|done].
  destruct (per_edge (absoluteOffset4 args) (absoluteOffset args)); [|done].
  destruct (uniformOrderStat4 args) as [[|u4 uo4]|];
    destruct (uniformOrderStat args) as [[|u uo]|]; reflexivity.
Qed.

Lemma per_edge_outcome (x4 : option (list Z)) (x : list Z) :
  per_edge x4 x
  = match x4, x with
    | Some (y :: l), _ => Ok (y :: l)
    | _, first :: _ => Ok [first; first; first; first]
    | _, [] => Raise IndexError
    end.
Proof. by destruct x4 as [[|y l]|], x as [|first x]. Qed.

(** X15: the call returns exactly when, for the percentage and for the
    offset, a per-edge list is given or the scalar list has a first entry;
    otherwise it raises [IndexError]. The order statistic never makes it
    raise: without any it is [0, 0, 0, 0]. *)
Theorem validate_crop_arguments_outcome (args : Args) :
  (scalar_or_quadruple (percentRetain4 args) (percentRetain args) ∧
   scalar_or_quadruple (absoluteOffset4 args) (absoluteOffset args) →
   returns (validate_crop_arguments args)) ∧
  (¬ (scalar_or_quadruple (percentRetain4 args) (percentRetain args) ∧
      scalar_or_quadruple (absoluteOffset4 args) (absoluteOffset args)) →
   validate_crop_arguments args = (args, Raise IndexError)).
Proof.
  rewrite validate_crop_arguments_unfold, !per_edge_outcome. unfold scalar_or_quadruple.
  destruct (percentRetain4 args) as [[|p4 pr4]|], (percentRetain args) as [|p pr];
    destruct (absoluteOffset4 args) as [[|a4 ao4]|], (absoluteOffset args) as [|a ao];
    simpl;
    (split;
     [ intros [[Hp|Hp] [Ha|Ha]]; try done;
       destruct (uniformOrderStat4 args) as [[|u4 uo4]|];
       destruct (uniformOrderStat args) as [[|u uo]|]; simpl; by eexists _, _
     | intros Hnot; try done; exfalso; apply Hnot; split; (by left) || (by right) ]).
Qed.

Lemma validate_crop_arguments_outcome_witness :
  returns (validate_crop_arguments order_stat_args) ∧
  validate_crop_arguments
    (mkArgs false false None None None [] (Some []) [0] None None None)
  = (mkArgs false false None None None [] (Some []) [0] None None None, Raise IndexError).
Proof.
  split.
  - apply (proj1 (validate_crop_arguments_outcome order_stat_args)).
    split; by right.
  - apply (proj2 (validate_crop_arguments_outcome
                    (mkArgs false false None None None [] (Some []) [0] None None None))).
    intros [[Hp|Hp] _]; simpl in Hp; [discriminate|done].
Defined.

(** X16: the returned dictionary has the three keys [percent_retain_4],
    [absolute_offset_4] and [uniform_order_stat_4] and no other. A per-edge
    list that is given and not empty is returned as it is, whatever its
    length; otherwise the value is four copies of the first scalar, and for
    the order statistic four zeros when there is no scalar either. *)
Theorem validate_crop_arguments_values (args args' : Args) (d : gmap string (list Z)) :
  validate_crop_arguments args = (args', Ok d) →
  dom d = {["percent_retain_4"; "absolute_offset_4"; "uniform_order_stat_4"]} ∧
  (∃ l, d !! "percent_retain_4" = Some l ∧
        expanded (percentRetain4 args) (head (percentRetain args)) l) ∧
  (∃ l, d !! "absolute_offset_4" = Some l ∧
        expanded (absoluteOffset4 args) (head (absoluteOffset args)) l) ∧
  (∃ l, d !! "uniform_order_stat_4" = Some l ∧
        expanded (uniformOrderStat4 args)
          (Some (match uniformOrderStat args with Some (u :: _) => u | _ => 0 end)) l).
Proof.
  rewrite validate_crop_arguments_unfold, !per_edge_outcome. intros [= _ H].
  apply bind_Ok_inv in H as (p & Hp & H).
  apply bind_Ok_inv in H as (a & Ha & H).
  apply bind_Ok_inv in H as (u & Hu & H). injection H as <-.
  split; [by rewrite !dom_insert_L, dom_empty_L, union_empty_r_L, (assoc_L (∪))|].
  split; [|split].
  - exists p. split; [done|]. unfold expanded.
    destruct (percentRetain4 args) as [[|y t]|], (percentRetain args) as [|v x];
      simplify_eq; eauto.
  - exists a. split; [done|]. unfold expanded.
    destruct (absoluteOffset4 args) as [[|y t]|], (absoluteOffset args) as [|v x];
      simplify_eq; eauto.
  - exists u. split; [done|]. unfold expanded.
    destruct (uniformOrderStat4 args) as [[|y t]|],
      (uniformOrderStat args) as [[|v x]|]; simpl in Hu; simplify_eq; eauto.
Qed.

Lemma order_stat_args_validated :
  ∃ d, validate_crop_arguments order_stat_args = (order_stat_args, Ok d).
Proof. rewrite validate_crop_arguments_unfold. by eexists. Qed.

Lemma validate_crop_arguments_values_witness :
  ∃ d, validate_crop_arguments order_stat_args = (order_stat_args, Ok d) ∧
       d !! "percent_retain_4" = Some [10; 10; 10; 10] ∧
       d !! "uniform_order_stat_4" = Some [0; 0; 0; 0].
Proof.
  destruct order_stat_args_validated as [d Hd].
  exists d. split; [done|].
  destruct (validate_crop_arguments_values _ _ _ Hd)
    as (_ & (p & Hp & Hpe) & _ & (u & Hu & Hue)).
  simpl in Hpe, Hue. destruct Hpe as (v & [= <-] & ->). destruct Hue as (w & [= <-] & ->).
  done.
Defined.

(** ** PageConfiguration: construction and validation *)

Lemma getattr_missing (args : gmap string pyval) (name : string) (fallback : pyval) :
  args !! name = None → getattr args name fallback = fallback.
Proof. unfold getattr. by intros ->. Qed.

(** X17: constructing a configuration from an [args] object that has none
    of the attributes looked up gives the configuration that [None] gives:
    the fallbacks of [getattr] agree with [_set_default_values]. *)
Theorem init_without_attributes (args : gmap string pyval) :
  (∀ name, name ∈ attribute_names → args !! name = None) →
  __init__ (Some args) = __init__ None.
Proof.
  intros Hmissing. unfold __init__, _set_values_from_args.
  rewrite !getattr_missing by (apply Hmissing; unfold attribute_names; set_solver).
  reflexivity.
Qed.

Lemma init_without_attributes_witness :
  __init__ (Some {["debug" := PBool true]}) = __init__ None.
Proof.
  apply init_without_attributes. intros name Hname.
  apply lookup_singleton_ne. unfold attribute_names in Hname.
  repeat (apply elem_of_cons in Hname as [->|Hname]; [done|]).
  by apply elem_of_nil in Hname.
Defined.

Lemma validate_settings_raise_x (c : PageConfiguration) :
  number_value (res_x c) = None → validate_settings c = (c, Raise TypeError).
Proof.
  intros Hx. unfold validate_settings. rewrite attr_bind. unfold py_le_zero.
  by rewrite Hx.
Qed.

Lemma validate_settings_raise_y (c : PageConfiguration) (x : Z) :
  number_value (res_x c) = Some x → number_value (res_y c) = None →
  validate_settings c
  = (if x <=? 0 then set_res_x (PNum DEFAULT_DPI) c else c, Raise TypeError).
Proof.
  intros Hx Hy. destruct c. simpl in *.
  unfold validate_settings, mbind, prog_bind, attr, assign, pure_call, mret, prog_ret,
    py_le_zero.
  simpl. rewrite Hx. destruct (x <=? 0); simpl; by rewrite Hy.
Qed.

(** X18: the call returns exactly when both resolutions are numbers. If
    [res_x] is not a number it raises [TypeError] and changes nothing; if
    [res_x] is a number and [res_y] is not, it raises [TypeError] after
    having repaired [res_x], so a failed call can leave the configuration
    partly repaired. *)
Theorem validate_settings_outcome (c : PageConfiguration) :
  (returns (validate_settings c) ↔
   is_Some (number_value (res_x c)) ∧ is_Some (number_value (res_y c))) ∧
  (number_value (res_x c) = None → validate_settings c = (c, Raise TypeError)) ∧
  (∀ x, number_value (res_x c) = Some x → number_value (res_y c) = None →
        validate_settings c
        = (if x <=? 0 then set_res_x (PNum DEFAULT_DPI) c else c, Raise TypeError)).
Proof.
  split; [|split; [apply validate_settings_raise_x|apply validate_settings_raise_y]].
  split.
  - intros (c1 & ws & Hc).
    destruct (number_value (res_x c)) as [x|] eqn:Hx;
      [|rewrite validate_settings_raise_x in Hc by done; discriminate].
    destruct (number_value (res_y c)) as [y|] eqn:Hy;
      [|rewrite (validate_settings_raise_y c x) in Hc by done; discriminate].
    split; by eexists.
  - intros [[x Hx] [y Hy]].
    destruct (not_four_element_list_total (percent_retain_4 c)) as [bad_pr Hpr].
    destruct (not_four_element_list_total (absolute_precrop_4 c)) as [bad_ap Hap].
    eexists _, _. apply validate_settings_by_checks; [| |exact Hpr|exact Hap].
    + unfold py_le_zero. by rewrite Hx.
    + unfold py_le_zero. by rewrite Hy.
Qed.

Lemma validate_settings_outcome_witness :
  validate_settings (set_res_y (PStr "150") scenario_configuration)
  = (set_res_x (PNum DEFAULT_DPI) (set_res_y (PStr "150") scenario_configuration),
     Raise TypeError).
Proof.
  apply (proj2 (proj2 (validate_settings_outcome
                         (set_res_y (PStr "150") scenario_configuration))) (-5));
    reflexivity.
Defined.





(** X20: whether the call returns or raises, it leaves the attributes
    [verbose], [password], [full_page_box], [percent_retain],
    [write_crop_data_to_file], [boxes_to_set] and [page_ratio_weights] as
    they were. *)
Theorem validate_settings_frame (c : PageConfiguration) :
  cfg_verbose (validate_settings c).1 = cfg_verbose c ∧
  password (validate_settings c).1 = password c ∧
  full_page_box (validate_settings c).1 = full_page_box c ∧
  percent_retain (validate_settings c).1 = percent_retain c ∧
  write_crop_data_to_file (validate_settings c).1 = write_crop_data_to_file c ∧
  boxes_to_set (validate_settings c).1 = boxes_to_set c ∧
  page_ratio_weights (validate_settings c).1 = page_ratio_weights c.
Proof.
  destruct c as [v pw rx ry fpb ap4 pr pr4 wf bts prw].
  unfold validate_settings, mbind, prog_bind, attr, assign, pure_call, mret, prog_ret.
  simpl.
  destruct (py_le_zero rx) as [[|]|]; simpl;
    destruct (py_le_zero ry) as [[|]|]; simpl;
    destruct (not_four_element_list pr4) as [[|]|]; simpl;
    destruct (not_four_element_list ap4) as [[|]|]; simpl; done.
Qed.

Lemma validate_settings_Ok_checks (c c1 : PageConfiguration) (ws : list string) :
  validate_settings c = (c1, Ok ws) →
  ∃ bad_x bad_y bad_pr bad_ap,
    py_le_zero (res_x c) = Ok bad_x ∧ py_le_zero (res_y c) = Ok bad_y ∧
    not_four_element_list (percent_retain_4 c) = Ok bad_pr ∧
    not_four_element_list (absolute_precrop_4 c) = Ok bad_ap.
Proof.
  intros Hc.
  destruct (number_value (res_x c)) as [x|] eqn:Hx;
    [|rewrite validate_settings_raise_x in Hc by done; discriminate].
  destruct (number_value (res_y c)) as [y|] eqn:Hy;
    [|rewrite (validate_settings_raise_y c x) in Hc by done; discriminate].
  destruct (not_four_element_list_total (percent_retain_4 c)) as [bad_pr Hpr].
  destruct (not_four_element_list_total (absolute_precrop_4 c)) as [bad_ap Hap].
  exists (x <=? 0), (y <=? 0), bad_pr, bad_ap. unfold py_le_zero. by rewrite Hx, Hy.
Qed.

(** X21: the warnings of a call that returned come in the order X
    resolution, Y resolution, [percent_retain_4], [absolute_precrop_4],
    each at most once, and there is none exactly when the call left the
    configuration as it was. *)
Theorem validate_settings_warnings (c c1 : PageConfiguration) (ws : list string) :
  validate_settings c = (c1, Ok ws) →
  (ws = [] ↔ c1 = c) ∧
  sublist ws [x_resolution_warning; y_resolution_warning;
              percent_retain_4_warning; absolute_precrop_4_warning].
Proof.
  intros Hc.
  destruct (validate_settings_Ok_checks _ _ _ Hc)
    as (bad_x & bad_y & bad_pr & bad_ap & Hx & Hy & Hpr & Hap).
  rewrite (validate_settings_by_checks c bad_x bad_y bad_pr bad_ap) in Hc by done.
  injection Hc as <- <-.
  destruct c as [v pw rx ry fpb ap4 pr pr4 wf bts prw]. simpl in *.
  split.
  - destruct bad_x, bad_y, bad_pr, bad_ap; simpl;
      (split; [try discriminate; done|]);
      try done; intros Heq;
      unfold set_absolute_precrop_4, set_percent_retain_4, set_res_y, set_res_x in Heq;
      simpl in Heq; injection Heq; intros; subst;
      vm_compute in Hx, Hy, Hpr, Hap; congruence.
  - destruct bad_x, bad_y, bad_pr, bad_ap; simpl; repeat constructor.
Qed.

Lemma validate_settings_warnings_witness :
  ([x_resolution_warning] = [] ↔
   set_res_x (PNum 72) scenario_configuration = scenario_configuration) ∧
  sublist [x_resolution_warning]
    [x_resolution_warning; y_resolution_warning;
     percent_retain_4_warning; absolute_precrop_4_warning].
Proof.
  apply (validate_settings_warnings scenario_configuration). reflexivity.
Defined.


